(** * MQTT status monitor (src/App.js): a shallow embedding

    The screen of [src/App.js] keeps five pieces of React state and one ref,
    registers four callbacks on an MQTT client and raises a notification when
    a message reports an offline device.  The embedding follows the file
    function by function:

    - JavaScript values produced by [JSON.parse] and the three abstract
      operations the message handler applies to them (property read,
      [ToBoolean], [ToString]);
    - the component state, the requests sent to the outside world, and a
      small state-and-exception monad in which the handlers are written;
    - the handlers themselves, and the event loop that dispatches to them;
    - a model of [JSON.parse] following ECMA-404, used wherever a concrete
      payload is evaluated. *)

From Stdlib Require Import String Ascii List ZArith NArith Bool Lia DecimalString.
Import ListNotations.
Open Scope string_scope.
Set Warnings "-register-all".

(** ** Strings

    A JavaScript string is modelled by the bytes of its UTF-8 encoding; the
    payload text is what [message.toString()] returns for the received
    buffer. *)

Definition dquote : string := String (ascii_of_nat 34) EmptyString.

(** [!s] for a string [s]: only the empty string is falsy. *)
Definition is_empty (s : string) : bool :=
  match s with
  | EmptyString => true
  | String _ _ => false
  end.

(** ** JavaScript values *)

Module Js.

(** A JSON number is kept as the decimal it was written as,
    [(-1)^neg * mantissa * 10^exponent]; the Number it denotes is the double
    nearest to that decimal. *)
Record numeral := mkNumeral {
  num_neg : bool;
  num_mantissa : N;
  num_exponent : Z
}.

Inductive value :=
| JNull
| JBool (b : bool)
| JNumber (n : numeral)
| JString (s : string)
| JArray (elements : list value)
| JObject (members : list (string * value)).

(** The exceptions the message handler can meet. *)
Inductive Exn := SyntaxError | TypeError.

Inductive Completion (A : Type) :=
| Normal (a : A)
| Throw (e : Exn).
Arguments Normal {A} a.
Arguments Throw {A} e.

(** Own property of an object built by [JSON.parse]: members are kept in
    source order and a later duplicate key overrides an earlier one. *)
Fixpoint lookup (name : string) (members : list (string * value)) : option value :=
  match members with
  | [] => None
  | (k, v) :: rest =>
      match lookup name rest with
      | Some w => Some w
      | None => if String.eqb k name then Some v else None
      end
  end.

(** [data.name] for a name that no prototype defines (the handler reads
    [status] and [stationId]); [None] is [undefined].  Reading a property of
    [null] throws a TypeError; on a boolean, number, string or array the
    lookup ends in the prototype chain and yields [undefined]. *)
Definition Get (data : value) (name : string) : Completion (option value) :=
  match data with
  | JNull => Throw TypeError
  | JObject members => Normal (lookup name members)
  | JBool _ | JNumber _ | JString _ | JArray _ => Normal None
  end.

(** [v === s] for a string literal [s]. *)
Definition strict_eq_string (v : option value) (s : string) : bool :=
  match v with
  | Some (JString t) => String.eqb t s
  | _ => false
  end.

(** The double nearest to a decimal is zero exactly when the decimal is at
    most [2^-1075], half the smallest subnormal (ties go to the even
    neighbour, which is zero).  This is the correctly rounded reading of the
    literal; the standard lets an engine round a literal of more than
    twenty significant digits from its first twenty. *)
Definition rounds_to_zero (n : numeral) : bool :=
  (num_mantissa n =? 0)%N
  || ((num_exponent n <? 0)%Z
      && (Z.of_N (num_mantissa n) * 2 ^ 1075 <=? 10 ^ (- num_exponent n))%Z).

(** [ToBoolean]: [undefined], [null], [false], zero and the empty string are
    falsy; every array and object is truthy. *)
Definition ToBoolean (v : option value) : bool :=
  match v with
  | None => false
  | Some JNull => false
  | Some (JBool b) => b
  | Some (JNumber n) => negb (rounds_to_zero n)
  | Some (JString s) => negb (is_empty s)
  | Some (JArray _) => true
  | Some (JObject _) => true
  end.

(** [a || b] where [b] is a string literal. *)
Definition or_else (a : option value) (b : string) : value :=
  match a with
  | Some v => if ToBoolean a then v else JString b
  | None => JString b
  end.

Definition has_key (name : string) (members : list (string * value)) : bool :=
  existsb (fun kv => String.eqb (fst kv) name) members.

Section ToString.

(** [Number::toString] of the double a numeral denotes. *)
Variable Number_toString : numeral -> string.

(** [ToString] as a template literal applies it.  An array is joined with
    commas, [null] elements printing as nothing.  An object without an own
    [toString] member prints as [[object Object]]; with one (which, coming
    from JSON, is never callable) [OrdinaryToPrimitive] falls through to
    [valueOf], obtains no primitive, and throws a TypeError. *)
Fixpoint ToString (v : value) : Completion string :=
  match v with
  | JNull => Normal "null"
  | JBool true => Normal "true"
  | JBool false => Normal "false"
  | JNumber n => Normal (Number_toString n)
  | JString s => Normal s
  | JArray elements =>
      (fix join (first : bool) (l : list value) : Completion string :=
         match l with
         | [] => Normal EmptyString
         | x :: rest =>
             match (match x with JNull => Normal EmptyString | _ => ToString x end) with
             | Throw e => Throw e
             | Normal sx =>
                 match join false rest with
                 | Throw e => Throw e
                 | Normal sr => Normal ((if first then EmptyString else ",") ++ sx ++ sr)
                 end
             end
         end) true elements
  | JObject members =>
      if has_key "toString" members then Throw TypeError
      else Normal "[object Object]"
  end.

End ToString.

End Js.
Import Js.

(** ** Component state and the outside world *)

(** What the callbacks registered by one call of [connectToMQTT] close over:
    the [brokerUrl] and [topic] of that call, and, through the
    [sendLocalNotification] of the same render, its [permissionGranted]. *)
Record Client := mkClient {
  brokerUrl : string;
  client_topic : string;
  client_permissionGranted : bool
}.

(** The [useState] cells and the [useRef] cell of [App]. *)
Record AppState := mkApp {
  ip : string;
  topic : string;
  connected : bool;
  statusLog : list string;
  clientRef : option Client;
  permissionGranted : bool
}.

(** The state of the first render. *)
Definition initial : AppState :=
  {| ip := EmptyString;
     topic := "status";
     connected := false;
     statusLog := [];
     clientRef := None;
     permissionGranted := false |}.

(** Requests made to the collaborators of the component. *)
Inductive Effect :=
| AlertAlert (title body : string)
| ScheduleNotification (title body : string)
| MqttConnect (url : string)
| ClientSubscribe (c : Client) (tp : string)
| ClientEnd (c : Client).

(** An alert in the sense of the specification is either sink. *)
Definition is_alert (e : Effect) : bool :=
  match e with
  | AlertAlert _ _ | ScheduleNotification _ _ => true
  | _ => false
  end.

Definition alerts (l : list Effect) : list Effect := filter is_alert l.

Definition alert_title (e : Effect) : option string :=
  match e with
  | AlertAlert t _ | ScheduleNotification t _ => Some t
  | _ => None
  end.

Definition alert_body (e : Effect) : option string :=
  match e with
  | AlertAlert _ b | ScheduleNotification _ b => Some b
  | _ => None
  end.

(** ** The handler monad: state, emitted requests, exceptions *)

Record Outcome (A : Type) := mkOutcome {
  final : AppState;
  emitted : list Effect;
  completion : Completion A
}.
Arguments mkOutcome {A} _ _ _.
Arguments final {A} _.
Arguments emitted {A} _.
Arguments completion {A} _.

Definition M (A : Type) : Type := AppState -> Outcome A.

Definition ret {A} (a : A) : M A := fun s => mkOutcome s [] (Normal a).

Definition throw {A} (e : Exn) : M A := fun s => mkOutcome s [] (Throw e).

Definition bind {A B} (m : M A) (f : A -> M B) : M B :=
  fun s =>
    let o := m s in
    match completion o with
    | Normal a =>
        let o' := f a (final o) in
        mkOutcome (final o') (emitted o ++ emitted o') (completion o')
    | Throw e => mkOutcome (final o) (emitted o) (Throw e)
    end.

(** [try { m } catch (e) { h }]: what [m] did before throwing stays done. *)
Definition try_catch {A} (m : M A) (h : Exn -> M A) : M A :=
  fun s =>
    let o := m s in
    match completion o with
    | Normal _ => o
    | Throw e =>
        let o' := h e (final o) in
        mkOutcome (final o') (emitted o ++ emitted o') (completion o')
    end.

Definition lift {A} (c : Completion A) : M A :=
  fun s => mkOutcome s [] c.

Definition gets {A} (f : AppState -> A) : M A :=
  fun s => mkOutcome s [] (Normal (f s)).

Definition modify (f : AppState -> AppState) : M unit :=
  fun s => mkOutcome (f s) [] (Normal tt).

Definition emit (e : Effect) : M unit :=
  fun s => mkOutcome s [e] (Normal tt).

Declare Scope js_scope.
Delimit Scope js_scope with js.
Notation "x <- m ;; k" := (bind m (fun x => k))
  (at level 61, m at next level, right associativity) : js_scope.
Notation "m ;; k" := (bind m (fun _ => k))
  (at level 61, right associativity) : js_scope.
Open Scope js_scope.

(** The state setters. *)
Definition setIp (v : string) : M unit :=
  modify (fun s => mkApp v (topic s) (connected s) (statusLog s) (clientRef s) (permissionGranted s)).
Definition setTopic (v : string) : M unit :=
  modify (fun s => mkApp (ip s) v (connected s) (statusLog s) (clientRef s) (permissionGranted s)).
Definition setConnected (v : bool) : M unit :=
  modify (fun s => mkApp (ip s) (topic s) v (statusLog s) (clientRef s) (permissionGranted s)).
Definition setStatusLog (f : list string -> list string) : M unit :=
  modify (fun s => mkApp (ip s) (topic s) (connected s) (f (statusLog s)) (clientRef s) (permissionGranted s)).
Definition setPermissionGranted (v : bool) : M unit :=
  modify (fun s => mkApp (ip s) (topic s) (connected s) (statusLog s) (clientRef s) v).
Definition set_clientRef (v : option Client) : M unit :=
  modify (fun s => mkApp (ip s) (topic s) (connected s) (statusLog s) v (permissionGranted s)).

(** ** The functions of [App] *)

Section Handlers.

(** [JSON.parse]: [None] when it throws a SyntaxError. *)
Variable JSON_parse : string -> option value.

(** [Number::toString], used when a number is spliced into a template. *)
Variable Number_toString : numeral -> string.

(** [log]: a functional update appending to whatever the log is by then. *)
Definition log (message : string) : M unit :=
  setStatusLog (fun logs => (logs ++ [message])%list).

(** [sendLocalNotification], with the [permissionGranted] its closure
    holds.  It is [async] and never awaited by its caller: either sink is
    called before it first suspends, and nothing it does later can throw
    into the caller. *)
Definition sendLocalNotification (c : Client) (message : string) : M unit :=
  if negb (client_permissionGranted c) then
    emit (AlertAlert "Notification" message)
  else
    emit (ScheduleNotification "🚨 Device Offline" message).

(** [connectToMQTT] *)
Definition connectToMQTT : M unit :=
  ip_ <- gets ip ;;
  topic_ <- gets topic ;;
  if is_empty ip_ || is_empty topic_ then
    emit (AlertAlert "Error" "Please enter both IP address and topic")
  else
    let brokerUrl_ := "ws://" ++ ip_ ++ ":9001/mqtt" in
    granted <- gets permissionGranted ;;
    emit (MqttConnect brokerUrl_) ;;
    set_clientRef (Some (mkClient brokerUrl_ topic_ granted)).

(** [client.on('connect', ...)] *)
Definition onConnect (c : Client) : M unit :=
  setConnected true ;;
  log ("✅ Connected to " ++ brokerUrl c) ;;
  emit (ClientSubscribe c (client_topic c)).

(** The callback handed to [client.subscribe]; [err] carries the message
    of the error object, if there is one. *)
Definition onSubscribe (c : Client) (err : option string) : M unit :=
  match err with
  | None => log ("📡 Subscribed to " ++ dquote ++ client_topic c ++ dquote)
  | Some message => log ("❌ Subscription failed: " ++ message)
  end.

(** [client.on('message', ...)]; [msg] is [message.toString()]. *)
Definition onMessage (c : Client) (topic_ msg : string) : M unit :=
  log ("📩 " ++ topic_ ++ ": " ++ msg) ;;
  try_catch
    (data <- lift (match JSON_parse msg with
                   | Some v => Normal v
                   | None => Throw SyntaxError
                   end) ;;
     status <- lift (Get data "status") ;;
     if strict_eq_string status "offline" then
       sid <- lift (Get data "stationId") ;;
       let stationId := or_else sid "Unknown Station" in
       body <- lift (ToString Number_toString stationId) ;;
       sendLocalNotification c ("Device " ++ dquote ++ body ++ dquote ++ " is offline") ;;
       line <- lift (ToString Number_toString stationId) ;;
       log ("🚨 " ++ dquote ++ line ++ dquote ++ " is offline")
     else
       ret tt)
    (fun _ => log ("⚠️ Invalid message format: " ++ msg)).

(** [client.on('error', ...)] *)
Definition onError (c : Client) (message : string) : M unit :=
  log ("❌ MQTT Error: " ++ message).

(** [client.on('close', ...)] *)
Definition onClose (c : Client) : M unit :=
  setConnected false ;;
  log ("🔌 Disconnected from " ++ brokerUrl c).

(** [resetConnection] *)
Definition resetConnection : M unit :=
  current <- gets clientRef ;;
  match current with
  | Some c => emit (ClientEnd c) ;; set_clientRef None
  | None => ret tt
  end ;;
  setConnected false ;;
  setStatusLog (fun _ => []) ;;
  setIp EmptyString ;;
  setTopic "mqtt/status".

(** The effect run after the first render, resumed with the [status] that
    [requestPermissionsAsync] resolved to. *)
Definition onPermission (status : string) : M unit :=
  setPermissionGranted (String.eqb status "granted") ;;
  if negb (String.eqb status "granted") then
    emit (AlertAlert "Permission denied" "Local notifications will not be shown.")
  else
    ret tt.

(** ** The event loop *)

(** What the transport can call back on a client. *)
Inductive Callback :=
| CbConnect
| CbSubscribe (err : option string)
| CbMessage (topic_ msg : string)
| CbError (message : string)
| CbClose.

(** Everything that can run a handler of the component. *)
Inductive Event :=
| ChangeIp (text : string)
| ChangeTopic (text : string)
| PressConnect
| PressDisconnect
| PermissionResolved (status : string)
| Transport (c : Client) (cb : Callback).

Definition callback (c : Client) (cb : Callback) : M unit :=
  match cb with
  | CbConnect => onConnect c
  | CbSubscribe err => onSubscribe c err
  | CbMessage topic_ msg => onMessage c topic_ msg
  | CbError message => onError c message
  | CbClose => onClose c
  end.

Definition handle (e : Event) : M unit :=
  match e with
  | ChangeIp text => setIp text
  | ChangeTopic text => setTopic text
  | PressConnect => connectToMQTT
  | PressDisconnect => resetConnection
  | PermissionResolved status => onPermission status
  | Transport c cb => callback c cb
  end.

(** Running a sequence of events, collecting what they emit. *)
Fixpoint run (events : list Event) (s : AppState) : AppState * list Effect :=
  match events with
  | [] => (s, [])
  | e :: rest =>
      let o := handle e s in
      let (s', effs) := run rest (final o) in
      (s', (emitted o ++ effs)%list)
  end.

End Handlers.

(** ** A model of [JSON.parse]

    The text is cut into tokens by an automaton that reads one character at
    a time, and the tokens are assembled by a second automaton with an
    explicit stack of the containers still open.  Both are structural
    recursions over their input, so the model is total: a text either
    denotes a value or is a syntax error. *)

Module JSON.

Inductive token :=
| TLBrace | TRBrace | TLBracket | TRBracket | TColon | TComma
| TString (s : string)
| TNumber (n : numeral)
| TTrue | TFalse | TNull.

(** *** String contents *)

(** A character of a string literal: a byte taken as written, or a UTF-16
    code unit given by an escape. *)
Inductive sitem :=
| Raw (b : ascii)
| Unit16 (u : N).

Definition byte (n : N) : string := String (ascii_of_N n) EmptyString.

(** The UTF-8 bytes of a code point (a lone surrogate is written out in the
    same three-byte form). *)
Definition utf8 (cp : N) : string :=
  if (cp <? 128)%N then byte cp
  else if (cp <? 2048)%N then
    byte (192 + cp / 64) ++ byte (128 + cp mod 64)
  else if (cp <? 65536)%N then
    byte (224 + cp / 4096) ++ byte (128 + (cp / 64) mod 64) ++ byte (128 + cp mod 64)
  else
    byte (240 + cp / 262144) ++ byte (128 + (cp / 4096) mod 64)
      ++ byte (128 + (cp / 64) mod 64) ++ byte (128 + cp mod 64).

Definition is_high (u : N) : bool := (55296 <=? u)%N && (u <? 56320)%N.
Definition is_low (u : N) : bool := (56320 <=? u)%N && (u <? 57344)%N.

Definition flush (pending : option N) : string :=
  match pending with
  | Some hi => utf8 hi
  | None => EmptyString
  end.

(** The string a literal denotes; [pending] is a high surrogate waiting for
    its low half. *)
Fixpoint encode (pending : option N) (items : list sitem) : string :=
  match items with
  | [] => flush pending
  | Raw b :: rest => flush pending ++ String b (encode None rest)
  | Unit16 u :: rest =>
      match pending with
      | Some hi =>
          if is_low u then
            utf8 (65536 + (hi - 55296) * 1024 + (u - 56320)) ++ encode None rest
          else if is_high u then utf8 hi ++ encode (Some u) rest
          else utf8 hi ++ utf8 u ++ encode None rest
      | None =>
          if is_high u then encode (Some u) rest
          else utf8 u ++ encode None rest
      end
  end.

(** *** The tokenizer *)

Inductive numstate :=
| NMinus    (* after the sign: a digit must follow *)
| NZero     (* after a leading zero *)
| NInt      (* in the integer digits *)
| NDot      (* after the point: a digit must follow *)
| NFrac     (* in the fraction digits *)
| NE        (* after e or E: a sign or a digit must follow *)
| NESign    (* after the exponent sign: a digit must follow *)
| NExp.     (* in the exponent digits *)

Record numacc := mkNumacc {
  acc_neg : bool;
  acc_mantissa : N;
  acc_scale : Z;
  acc_eneg : bool;
  acc_exp : N
}.

Inductive lexstate :=
| LStart
| LWord (expected : list N) (t : token)
| LStr (acc : list sitem)
| LEsc (acc : list sitem)
| LHex (acc : list sitem) (needed : nat) (u : N)
| LNum (st : numstate) (a : numacc).

Definition numeral_of (a : numacc) : numeral :=
  mkNumeral (acc_neg a) (acc_mantissa a)
    (acc_scale a + (if acc_eneg a then - Z.of_N (acc_exp a) else Z.of_N (acc_exp a)))%Z.

Definition complete (st : numstate) : bool :=
  match st with
  | NZero | NInt | NFrac | NExp => true
  | NMinus | NDot | NE | NESign => false
  end.

Definition is_digit (n : N) : bool := (48 <=? n)%N && (n <=? 57)%N.

Definition hex_value (n : N) : option N :=
  if is_digit n then Some (n - 48)%N
  else if (65 <=? n)%N && (n <=? 70)%N then Some (n - 55)%N
  else if (97 <=? n)%N && (n <=? 102)%N then Some (n - 87)%N
  else None.

(** Between tokens: white space is tab, line feed, carriage return, space. *)
Definition lex_start (n : N) : option (lexstate * list token) :=
  match n with
  | 9 | 10 | 13 | 32 => Some (LStart, [])
  | 123 => Some (LStart, [TLBrace])
  | 125 => Some (LStart, [TRBrace])
  | 91 => Some (LStart, [TLBracket])
  | 93 => Some (LStart, [TRBracket])
  | 58 => Some (LStart, [TColon])
  | 44 => Some (LStart, [TComma])
  | 34 => Some (LStr [], [])
  | 45 => Some (LNum NMinus (mkNumacc true 0 0 false 0), [])
  | 48 => Some (LNum NZero (mkNumacc false 0 0 false 0), [])
  | 116 => Some (LWord [114; 117; 101] TTrue, [])
  | 102 => Some (LWord [97; 108; 115; 101] TFalse, [])
  | 110 => Some (LWord [117; 108; 108] TNull, [])
  | _ =>
      if is_digit n then Some (LNum NInt (mkNumacc false (n - 48) 0 false 0), [])
      else None
  end%N.

Definition lex_escape (acc : list sitem) (n : N) : option lexstate :=
  match n with
  | 34 | 92 | 47 => Some (LStr (Raw (ascii_of_N n) :: acc))
  | 98 => Some (LStr (Raw (ascii_of_N 8) :: acc))
  | 102 => Some (LStr (Raw (ascii_of_N 12) :: acc))
  | 110 => Some (LStr (Raw (ascii_of_N 10) :: acc))
  | 114 => Some (LStr (Raw (ascii_of_N 13) :: acc))
  | 116 => Some (LStr (Raw (ascii_of_N 9) :: acc))
  | 117 => Some (LHex acc 4 0)
  | _ => None
  end%N.

Definition lex_number (st : numstate) (a : numacc) (n : N)
  : option (lexstate * list token) :=
  if is_digit n then
    let d := (n - 48)%N in
    match st with
    | NZero => None
    | NMinus =>
        if (d =? 0)%N then Some (LNum NZero a, [])
        else Some (LNum NInt (mkNumacc (acc_neg a) d 0 false 0), [])
    | NInt =>
        Some (LNum NInt (mkNumacc (acc_neg a) (acc_mantissa a * 10 + d) 0 false 0), [])
    | NDot | NFrac =>
        Some (LNum NFrac (mkNumacc (acc_neg a) (acc_mantissa a * 10 + d)
                            (acc_scale a - 1) false 0), [])
    | NE | NESign | NExp =>
        Some (LNum NExp (mkNumacc (acc_neg a) (acc_mantissa a) (acc_scale a)
                           (acc_eneg a) (acc_exp a * 10 + d)), [])
    end
  else
    match n, st with
    | 46, (NZero | NInt) => Some (LNum NDot a, [])
    | (69 | 101), (NZero | NInt | NFrac) => Some (LNum NE a, [])
    | 43, NE => Some (LNum NESign a, [])
    | 45, NE =>
        Some (LNum NESign (mkNumacc (acc_neg a) (acc_mantissa a) (acc_scale a) true 0), [])
    | _, _ =>
        if complete st then
          match lex_start n with
          | Some (st', ts) => Some (st', TNumber (numeral_of a) :: ts)
          | None => None
          end
        else None
    end%N.

Definition lex_step (st : lexstate) (c : ascii) : option (lexstate * list token) :=
  let n := N_of_ascii c in
  match st with
  | LStart => lex_start n
  | LWord expected t =>
      match expected with
      | [] => None
      | x :: rest =>
          if (n =? x)%N then
            match rest with
            | [] => Some (LStart, [t])
            | _ :: _ => Some (LWord rest t, [])
            end
          else None
      end
  | LStr acc =>
      if (n =? 34)%N then Some (LStart, [TString (encode None (rev acc))])
      else if (n =? 92)%N then Some (LEsc acc, [])
      else if (n <? 32)%N then None
      else Some (LStr (Raw c :: acc), [])
  | LEsc acc =>
      match lex_escape acc n with
      | Some st' => Some (st', [])
      | None => None
      end
  | LHex acc needed u =>
      match hex_value n with
      | None => None
      | Some d =>
          let u' := (u * 16 + d)%N in
          match needed with
          | 0%nat | 1%nat => Some (LStr (Unit16 u' :: acc), [])
          | S k => Some (LHex acc k u', [])
          end
      end
  | LNum st' a => lex_number st' a n
  end.

Definition lex_end (st : lexstate) : option (list token) :=
  match st with
  | LStart => Some []
  | LNum st' a => if complete st' then Some [TNumber (numeral_of a)] else None
  | LWord _ _ | LStr _ | LEsc _ | LHex _ _ _ => None
  end.

Fixpoint lex (st : lexstate) (text : string) : option (list token) :=
  match text with
  | EmptyString => lex_end st
  | String c rest =>
      match lex_step st c with
      | None => None
      | Some (st', ts) =>
          match lex st' rest with
          | None => None
          | Some more => Some (ts ++ more)%list
          end
      end
  end.

(** *** Assembling values *)

(** A container still open, waiting for the value being read. *)
Inductive frame :=
| FArray (done : list value)
| FObject (done : list (string * value)) (key : string).

Inductive pstate :=
| PValue (stack : list frame)
| PArrFirst (stack : list frame)
| PAfterArr (done : list value) (stack : list frame)
| PObjFirst (stack : list frame)
| PKey (done : list (string * value)) (stack : list frame)
| PColon (done : list (string * value)) (key : string) (stack : list frame)
| PAfterObj (done : list (string * value)) (stack : list frame)
| PDone (v : value).

(** A value is complete: it goes to the innermost open container, or is the
    result. *)
Definition push_value (stack : list frame) (v : value) : pstate :=
  match stack with
  | [] => PDone v
  | FArray done :: outer => PAfterArr (v :: done) outer
  | FObject done key :: outer => PAfterObj ((key, v) :: done) outer
  end.

Definition start_value (stack : list frame) (t : token) : option pstate :=
  match t with
  | TNull => Some (push_value stack JNull)
  | TTrue => Some (push_value stack (JBool true))
  | TFalse => Some (push_value stack (JBool false))
  | TNumber n => Some (push_value stack (JNumber n))
  | TString s => Some (push_value stack (JString s))
  | TLBracket => Some (PArrFirst stack)
  | TLBrace => Some (PObjFirst stack)
  | TRBracket | TRBrace | TColon | TComma => None
  end.

Definition parse_step (st : pstate) (t : token) : option pstate :=
  match st, t with
  | PValue stack, _ => start_value stack t
  | PArrFirst stack, TRBracket => Some (push_value stack (JArray []))
  | PArrFirst stack, _ => start_value (FArray [] :: stack) t
  | PAfterArr done stack, TComma => Some (PValue (FArray done :: stack))
  | PAfterArr done stack, TRBracket => Some (push_value stack (JArray (rev done)))
  | PObjFirst stack, TRBrace => Some (push_value stack (JObject []))
  | PObjFirst stack, TString k => Some (PColon [] k stack)
  | PKey done stack, TString k => Some (PColon done k stack)
  | PColon done k stack, TColon => Some (PValue (FObject done k :: stack))
  | PAfterObj done stack, TComma => Some (PKey done stack)
  | PAfterObj done stack, TRBrace => Some (push_value stack (JObject (rev done)))
  | _, _ => None
  end.

Fixpoint assemble (st : pstate) (ts : list token) : option value :=
  match ts with
  | [] => match st with PDone v => Some v | _ => None end
  | t :: rest =>
      match parse_step st t with
      | Some st' => assemble st' rest
      | None => None
      end
  end.

(** [JSON.parse(text)]: [None] is a SyntaxError. *)
Definition parse (text : string) : option value :=
  match lex LStart text with
  | Some ts => assemble (PValue []) ts
  | None => None
  end.

End JSON.

(** [Number::toString] on the numerals that denote an integer below [2^53]
    written without fraction or exponent, where it is the digits as written
    (and [-0] prints as [0]).  The canonical form of any other number is a
    function of the double itself; for those the rendering below is
    mantissa and exponent, a placeholder that no example reaches. *)
Definition Number_toString_int (n : numeral) : string :=
  let digits := NilZero.string_of_uint (N.to_uint (num_mantissa n)) in
  let sign := if num_neg n && negb (num_mantissa n =? 0)%N then "-" else EmptyString in
  if (num_exponent n =? 0)%Z then sign ++ digits
  else sign ++ digits ++ "e"
         ++ (if (num_exponent n <? 0)%Z then "-" else EmptyString)
         ++ NilZero.string_of_uint (N.to_uint (Z.abs_N (num_exponent n))).

(** ** Vocabulary of the statements *)

(** The state [s] with [entries] added at the end of its log and nothing
    else touched. *)
Definition logged (s : AppState) (entries : list string) : AppState :=
  mkApp (ip s) (topic s) (connected s) (statusLog s ++ entries)
        (clientRef s) (permissionGranted s).

(** The state every [resetConnection] ends in. *)
Definition cleared (s : AppState) : AppState :=
  mkApp EmptyString "mqtt/status" false [] None (permissionGranted s).

(** The first line [onMessage] logs, whatever the payload. *)
Definition raw_entry (topic_ msg : string) : string :=
  "📩 " ++ topic_ ++ ": " ++ msg.

Definition invalid_entry (msg : string) : string :=
  "⚠️ Invalid message format: " ++ msg.

Definition offline_entry (name : string) : string :=
  "🚨 " ++ dquote ++ name ++ dquote ++ " is offline".

Definition offline_body (name : string) : string :=
  "Device " ++ dquote ++ name ++ dquote ++ " is offline".

(** A few payloads and clients for the worked examples. *)
Definition field (k : string) (v : string) : string :=
  dquote ++ k ++ dquote ++ ":" ++ v.
Definition quoted (s : string) : string := dquote ++ s ++ dquote.

Definition pump3_offline : string :=
  "{" ++ field "status" (quoted "offline") ++ ","
      ++ field "stationId" (quoted "Pump-3") ++ "}".
Definition blank_station_offline : string :=
  "{" ++ field "status" (quoted "offline") ++ ","
      ++ field "stationId" (quoted EmptyString) ++ "}".
Definition station42_offline : string :=
  "{" ++ field "status" (quoted "offline") ++ "," ++ field "stationId" "42" ++ "}".
Definition pump3_online : string :=
  "{" ++ field "status" (quoted "online") ++ ","
      ++ field "stationId" (quoted "Pump-3") ++ "}".

Definition lab_client (granted : bool) : Client :=
  mkClient "ws://10.0.0.5:9001/mqtt" "status" granted.

(** A monitor connected to an old broker with two lines in its log. *)
Definition busy : AppState :=
  mkApp "10.0.0.5" "status" true
    ["✅ Connected to ws://10.0.0.5:9001/mqtt"; "📩 status: hello"]
    (Some (lab_client false)) true.

(** ** What [App] returns *)

(** One [<Text key={index}>] line of the log box. *)
Record Row := mkRow {
  row_key : nat;
  row_text : string
}.

(** [statusLog.map((log, index) => ...)], the index counted from [index]. *)
Fixpoint rows_from (index : nat) (logs : list string) : list Row :=
  match logs with
  | [] => []
  | entry :: rest => mkRow index entry :: rows_from (S index) rest
  end.

(** The parts of the returned tree that depend on the state: the values of
    the two inputs, [disabled={connected}] on the Connect button, and the
    rows of the log box. *)
Record Screen := mkScreen {
  ip_value : string;
  topic_value : string;
  connect_disabled : bool;
  log_rows : list Row
}.

Definition render (s : AppState) : Screen :=
  mkScreen (ip s) (topic s) (connected s) (rows_from 0 (statusLog s)).

(** The events a screen lets the user raise: Connect is the one control
    that can be disabled; transport callbacks do not go through the screen. *)
Definition offered (v : Screen) (e : Event) : bool :=
  match e with
  | PressConnect => negb (connect_disabled v)
  | _ => true
  end.

(** ** Vocabulary for traces *)

(** The alert [sendLocalNotification] raises for a client's closure. *)
Definition alert_for (c : Client) (message : string) : Effect :=
  if client_permissionGranted c
  then ScheduleNotification "🚨 Device Offline" message
  else AlertAlert "Notification" message.

Definition is_subscribe (e : Effect) : bool :=
  match e with ClientSubscribe _ _ => true | _ => false end.

Definition is_open (e : Effect) : bool :=
  match e with MqttConnect _ => true | _ => false end.

Definition is_end (e : Effect) : bool :=
  match e with ClientEnd _ => true | _ => false end.

Definition is_connect_callback (e : Event) : bool :=
  match e with Transport _ CbConnect => true | _ => false end.

Definition is_message_callback (e : Event) : bool :=
  match e with Transport _ (CbMessage _ _) => true | _ => false end.

Definition count {A : Type} (p : A -> bool) (l : list A) : nat :=
  length (filter p l).

(** One if a handle is stored in [clientRef], zero otherwise. *)
Definition held (s : AppState) : nat :=
  match clientRef s with
  | Some _ => 1
  | None => 0
  end.

(** The handle stored in [clientRef], if any, was opened on a URL of the
    form [ws://host:9001/mqtt] with a non-empty host, for a non-empty
    topic. *)
Definition handle_well_formed (s : AppState) : Prop :=
  match clientRef s with
  | Some c =>
      exists host,
        host <> EmptyString
        /\ brokerUrl c = "ws://" ++ host ++ ":9001/mqtt"
        /\ client_topic c <> EmptyString
  | None => True
  end.

(** What a transport callback does to [connected]. *)
Definition flag_after (cb : Callback) (before : bool) : bool :=
  match cb with
  | CbConnect => true
  | CbClose => false
  | CbSubscribe _ | CbMessage _ _ | CbError _ => before
  end.

(** A monitor with both fields filled in and Connect not yet pressed. *)
Definition ready : AppState :=
  mkApp "10.0.0.5" "status" false [] None false.

(** An offline report whose [stationId] is an object with a [toString]
    member. *)
Definition unprintable_offline : string :=
  "{" ++ field "status" (quoted "offline") ++ ","
      ++ field "stationId" ("{" ++ field "toString" "1" ++ "}") ++ "}".

(** A second client on the same topic, opened on another host while the
    first ([lab_client false]) had not answered yet. *)
Definition second_client : Client :=
  mkClient "ws://10.0.0.6:9001/mqtt" "status" false.

(** Connect is pressed for 10.0.0.5 and, before the transport answers,
    again for 10.0.0.6. *)
Definition double_connect : list Event :=
  [ChangeIp "10.0.0.5"; PressConnect; ChangeIp "10.0.0.6"; PressConnect].

(** Disconnect, then Connect to 10.0.0.9 on the topic [alarms]. *)
Definition reconnect_alarms : list Event :=
  [PressDisconnect; ChangeIp "10.0.0.9"; ChangeTopic "alarms"; PressConnect].

(** ** Properties of the handlers *)

Section Properties.

Local Open Scope list_scope.

Variable JSON_parse : string -> option value.
Variable Number_toString : numeral -> string.

(** The alert [sendLocalNotification] raises for a client. *)
Lemma sendLocalNotification_run c message s :
  sendLocalNotification c message s =
    mkOutcome s
      [if client_permissionGranted c
       then ScheduleNotification "🚨 Device Offline" message
       else AlertAlert "Notification" message]
      (Normal tt).
Proof. unfold sendLocalNotification. now destruct (client_permissionGranted c). Qed.

(** [onMessage] on a payload that does not parse. *)
Lemma onMessage_syntax_error c topic_ msg s :
  JSON_parse msg = None ->
  onMessage JSON_parse Number_toString c topic_ msg s =
    mkOutcome (logged s [raw_entry topic_ msg; invalid_entry msg]) [] (Normal tt).
Proof.
  intros Hp. unfold onMessage, bind, try_catch, lift. simpl.
  rewrite Hp. simpl. unfold logged. simpl. now rewrite <- app_assoc.
Qed.

(** [onMessage] on a payload that parses, by what the guarded block meets. *)
Lemma onMessage_parsed c topic_ msg s data :
  JSON_parse msg = Some data ->
  onMessage JSON_parse Number_toString c topic_ msg s =
    match Get data "status" with
    | Throw _ =>
        mkOutcome (logged s [raw_entry topic_ msg; invalid_entry msg]) [] (Normal tt)
    | Normal status =>
        if strict_eq_string status "offline" then
          match Get data "stationId" with
          | Throw _ =>
              mkOutcome (logged s [raw_entry topic_ msg; invalid_entry msg]) [] (Normal tt)
          | Normal sid =>
              match ToString Number_toString (or_else sid "Unknown Station") with
              | Throw _ =>
                  mkOutcome (logged s [raw_entry topic_ msg; invalid_entry msg]) []
                    (Normal tt)
              | Normal name =>
                  mkOutcome (logged s [raw_entry topic_ msg; offline_entry name])
                    [if client_permissionGranted c
                     then ScheduleNotification "🚨 Device Offline" (offline_body name)
                     else AlertAlert "Notification" (offline_body name)]
                    (Normal tt)
              end
          end
        else mkOutcome (logged s [raw_entry topic_ msg]) [] (Normal tt)
    end.
Proof.
  intros Hp. unfold onMessage, bind, try_catch, lift. simpl.
  rewrite Hp. simpl.
  destruct (Get data "status") as [status|e]; simpl.
  2:{ unfold logged; simpl. now rewrite <- app_assoc. }
  destruct (strict_eq_string status "offline"); simpl; [|reflexivity].
  destruct (Get data "stationId") as [sid|e]; simpl.
  2:{ unfold logged; simpl. now rewrite <- app_assoc. }
  destruct (ToString Number_toString (or_else sid "Unknown Station")) as [name|e]; simpl.
  2:{ unfold logged; simpl. now rewrite <- app_assoc. }
  rewrite sendLocalNotification_run. simpl.
  unfold logged; simpl. now rewrite <- app_assoc.
Qed.

(** A payload whose [status] is the string [offline] is an object. *)
Lemma offline_is_object data :
  Get data "status" = Normal (Some (JString "offline")) ->
  exists members, data = JObject members.
Proof.
  destruct data; simpl; intros H; try discriminate. now eexists.
Qed.

Lemma strict_eq_string_true v s :
  strict_eq_string v s = true <-> v = Some (JString s).
Proof.
  destruct v as [[| | |t| |]|]; simpl; split; intros H; try discriminate;
    try (inversion H; fail).
  - apply String.eqb_eq in H. now subst.
  - inversion H. apply String.eqb_refl.
Qed.

(** In every case [onMessage] only adds to the log, starting with the raw
    message line, and completes normally. *)
Lemma onMessage_logs c topic_ msg s :
  exists entries,
    final (onMessage JSON_parse Number_toString c topic_ msg s)
      = logged s (raw_entry topic_ msg :: entries)
    /\ completion (onMessage JSON_parse Number_toString c topic_ msg s) = Normal tt.
Proof.
  destruct (JSON_parse msg) as [data|] eqn:Hp.
  - rewrite (onMessage_parsed _ _ _ _ _ Hp).
    destruct (Get data "status") as [status|]; [|now eexists].
    destruct (strict_eq_string status "offline"); [|now eexists].
    destruct (Get data "stationId") as [sid|]; [|now eexists].
    destruct (ToString Number_toString (or_else sid "Unknown Station"));
      now eexists.
  - rewrite (onMessage_syntax_error _ _ _ _ Hp). now eexists.
Qed.

(** Every transport callback leaves a state that differs from the one it
    found at most in [connected] and in entries added to the log. *)
Lemma callback_logs c cb s :
  exists entries,
    statusLog (final (callback JSON_parse Number_toString c cb s))
      = statusLog s ++ entries.
Proof.
  destruct cb as [|err|topic_ msg|message|]; unfold callback.
  - now eexists.
  - destruct err; now eexists.
  - destruct (onMessage_logs c topic_ msg s) as (entries & -> & _). now eexists.
  - now eexists.
  - now eexists.
Qed.

(** [onMessage] asks nothing of the outside world but alerts. *)
Lemma onMessage_emits_alerts c topic_ msg s e :
  In e (emitted (onMessage JSON_parse Number_toString c topic_ msg s)) ->
  is_alert e = true.
Proof.
  destruct (JSON_parse msg) as [data|] eqn:Hp.
  - rewrite (onMessage_parsed _ _ _ _ _ Hp).
    destruct (Get data "status") as [status|]; [|now simpl].
    destruct (strict_eq_string status "offline"); [|now simpl].
    destruct (Get data "stationId") as [sid|]; [|now simpl].
    destruct (ToString Number_toString (or_else sid "Unknown Station"));
      [|now simpl].
    simpl. intros [<-|[]]. now destruct (client_permissionGranted c).
  - rewrite (onMessage_syntax_error _ _ _ _ Hp). now simpl.
Qed.

(** The falsy values a JSON payload can put in a field. *)
Lemma ToBoolean_false sid :
  ToBoolean sid = false <->
  sid = None \/ sid = Some JNull \/ sid = Some (JBool false)
  \/ (exists n, sid = Some (JNumber n) /\ rounds_to_zero n = true)
  \/ sid = Some (JString EmptyString).
Proof.
  split.
  - destruct sid as [[|[|]|n|str| |]|]; simpl; intros H; try discriminate; auto.
    + right; right; right; left. exists n. split; [reflexivity|].
      now apply negb_false_iff.
    + destruct str; [auto 6|discriminate].
  - intros [-> | [-> | [-> | [[n [-> Hn]] | ->]]]]; simpl; try reflexivity.
    now rewrite Hn.
Qed.

(** C1, amended.  A payload that [JSON.parse] rejects makes [onMessage]
    append exactly two log entries, the raw message line and then one
    invalid-message-format line, and emit no alert (indeed no request at
    all); nothing else changes and the handler completes normally. *)
Theorem onMessage_malformed_payload c topic_ msg s :
  JSON_parse msg = None ->
  let o := onMessage JSON_parse Number_toString c topic_ msg s in
  final o = logged s [raw_entry topic_ msg; invalid_entry msg]
  /\ length (statusLog (final o)) = (length (statusLog s) + 2)%nat
  /\ alerts (emitted o) = []
  /\ emitted o = []
  /\ completion o = Normal tt.
Proof.
  intros Hp o. subst o. rewrite (onMessage_syntax_error _ _ _ _ Hp). simpl.
  repeat split. rewrite length_app. reflexivity.
Qed.

(** C2, amended.  For a payload that parses to an object whose [status]
    is the string [offline], and whose [stationId || 'Unknown Station']
    converts to the string [name], [onMessage] emits exactly one alert and
    then logs the matching offline line after the raw message line.  The
    alert carries the body [Device "name" is offline]; it is a scheduled
    notification titled [🚨 Device Offline] when the client was created
    with notification permission granted, and an alert dialog titled
    [Notification] otherwise.  [name] is the payload's [stationId] when
    that is a non-empty string and [Unknown Station] when it is absent. *)
Theorem onMessage_offline_alert c topic_ msg s members name :
  JSON_parse msg = Some (JObject members) ->
  lookup "status" members = Some (JString "offline") ->
  ToString Number_toString (or_else (lookup "stationId" members) "Unknown Station")
    = Normal name ->
  let o := onMessage JSON_parse Number_toString c topic_ msg s in
  emitted o =
    [if client_permissionGranted c
     then ScheduleNotification "🚨 Device Offline" (offline_body name)
     else AlertAlert "Notification" (offline_body name)]
  /\ length (alerts (emitted o)) = 1%nat
  /\ final o = logged s [raw_entry topic_ msg; offline_entry name]
  /\ completion o = Normal tt
  /\ (forall str, lookup "stationId" members = Some (JString str) ->
                  str <> EmptyString -> name = str)
  /\ (lookup "stationId" members = None -> name = "Unknown Station").
Proof.
  intros Hp Hst Hname o. subst o.
  rewrite (onMessage_parsed _ _ _ _ _ Hp). simpl.
  rewrite Hst. simpl. rewrite Hname.
  repeat split.
  - simpl. now destruct (client_permissionGranted c).
  - intros str Hsid Hne. rewrite Hsid in Hname. simpl in Hname.
    destruct str; [congruence|]. simpl in Hname. congruence.
  - intros Hsid. rewrite Hsid in Hname. simpl in Hname. congruence.
Qed.

(** C3, amended.  For a payload that parses to an object whose [status]
    is the string [offline], the value spliced into the alert body is
    [Unknown Station] exactly when the payload's [stationId] is absent or
    falsy ([null], [false], a number that is zero, or the empty string);
    otherwise it is the payload's [stationId] itself, converted to a
    string, so a non-empty string is used unchanged. *)
Theorem onMessage_stationId_default c topic_ msg s members :
  JSON_parse msg = Some (JObject members) ->
  lookup "status" members = Some (JString "offline") ->
  let sid := lookup "stationId" members in
  let used := or_else sid "Unknown Station" in
  let o := onMessage JSON_parse Number_toString c topic_ msg s in
  (forall name, ToString Number_toString used = Normal name ->
     map alert_body (emitted o) = [Some (offline_body name)])
  /\ (ToBoolean sid = false -> used = JString "Unknown Station")
  /\ (ToBoolean sid = true -> sid = Some used)
  /\ (ToBoolean sid = false <->
        sid = None \/ sid = Some JNull \/ sid = Some (JBool false)
        \/ (exists n, sid = Some (JNumber n) /\ rounds_to_zero n = true)
        \/ sid = Some (JString EmptyString))
  /\ (forall str, sid = Some (JString str) -> str <> EmptyString ->
        map alert_body (emitted o) = [Some (offline_body str)]).
Proof.
  intros Hp Hst sid used o. subst o.
  rewrite (onMessage_parsed _ _ _ _ _ Hp). simpl.
  rewrite Hst. simpl. fold sid. fold used.
  split; [|split; [|split; [|split]]].
  - intros name ->. simpl. now destruct (client_permissionGranted c).
  - subst used. unfold or_else. destruct sid; [|reflexivity].
    now intros ->.
  - subst used. unfold or_else. destruct sid; [|discriminate].
    now intros ->.
  - apply ToBoolean_false.
  - intros str Hsid Hne. subst used. rewrite Hsid.
    destruct str; [congruence|]. simpl.
    now destruct (client_permissionGranted c).
Qed.

(** C4.  For a payload that parses and whose [status] is not the string
    [offline] (it may be absent, of another type, or the payload may not
    be an object at all), [onMessage] emits no alert, and no other request
    either. *)
Theorem onMessage_not_offline c topic_ msg s data :
  JSON_parse msg = Some data ->
  Get data "status" <> Normal (Some (JString "offline")) ->
  let o := onMessage JSON_parse Number_toString c topic_ msg s in
  alerts (emitted o) = [] /\ emitted o = [].
Proof.
  intros Hp Hst o. subst o.
  rewrite (onMessage_parsed _ _ _ _ _ Hp).
  destruct (Get data "status") as [status|]; [|now simpl].
  destruct (strict_eq_string status "offline") eqn:Heq; [|now simpl].
  apply strict_eq_string_true in Heq. now subst.
Qed.

(** C5, amended.  On a monitor with no transport handle [resetConnection]
    asks nothing of the transport and ends in the cleared state:
    disconnected, empty log, empty host, topic [mqtt/status].  It is a
    no-op exactly when the monitor is already in that state, as it is
    right after a previous [resetConnection]; a second call in a row
    changes nothing. *)
Theorem resetConnection_without_handle s :
  clientRef s = None ->
  resetConnection s = mkOutcome (cleared s) [] (Normal tt)
  /\ (final (resetConnection s) = s <->
        connected s = false /\ statusLog s = [] /\ ip s = EmptyString
        /\ topic s = "mqtt/status")
  /\ resetConnection (final (resetConnection s))
       = mkOutcome (final (resetConnection s)) [] (Normal tt).
Proof.
  intros Hc.
  assert (Hrun : resetConnection s = mkOutcome (cleared s) [] (Normal tt)).
  { unfold resetConnection, bind, gets. simpl. rewrite Hc. simpl.
    unfold cleared. now rewrite Hc. }
  rewrite Hrun. simpl. split; [reflexivity|]. split; [|reflexivity].
  unfold cleared. destruct s as [i t k l r g]. simpl in *. subst r. split.
  - intros H. inversion H. auto.
  - intros (-> & -> & -> & ->). reflexivity.
Qed.

(** C6.  When the host or the topic is empty, [connectToMQTT] raises the
    alert [Error] / [Please enter both IP address and topic] and does
    nothing else: no [mqtt.connect], and the state (connection state, log,
    host, topic, handle) is the one it found. *)
Theorem connectToMQTT_missing_config s :
  ip s = EmptyString \/ topic s = EmptyString ->
  connectToMQTT s =
    mkOutcome s [AlertAlert "Error" "Please enter both IP address and topic"]
      (Normal tt)
  /\ final (connectToMQTT s) = s
  /\ (forall url, ~ In (MqttConnect url) (emitted (connectToMQTT s))).
Proof.
  intros H.
  assert (Hg : is_empty (ip s) || is_empty (topic s) = true).
  { destruct H as [-> | ->]; simpl; [reflexivity|apply orb_true_r]. }
  assert (Hrun : connectToMQTT s =
            mkOutcome s [AlertAlert "Error" "Please enter both IP address and topic"]
              (Normal tt)).
  { unfold connectToMQTT, bind, gets. simpl. rewrite Hg. reflexivity. }
  rewrite Hrun. simpl. repeat split.
  intros url [Heq|[]]. discriminate.
Qed.

(** [resetConnection] from any state. *)
Lemma resetConnection_run s :
  resetConnection s =
    mkOutcome (cleared s)
      match clientRef s with
      | Some old => [ClientEnd old]
      | None => []
      end
      (Normal tt).
Proof.
  unfold resetConnection, bind, gets. simpl.
  destruct (clientRef s) as [old|] eqn:Hc; simpl; unfold cleared;
    rewrite ?Hc; reflexivity.
Qed.

(** [connectToMQTT] with both fields filled in. *)
Lemma connectToMQTT_run s :
  ip s <> EmptyString -> topic s <> EmptyString ->
  connectToMQTT s =
    let url := ("ws://" ++ ip s ++ ":9001/mqtt")%string in
    mkOutcome
      (mkApp (ip s) (topic s) (connected s) (statusLog s)
         (Some (mkClient url (topic s) (permissionGranted s)))
         (permissionGranted s))
      [MqttConnect url] (Normal tt).
Proof.
  intros Hi Ht.
  assert (Hg : is_empty (ip s) || is_empty (topic s) = false).
  { destruct (ip s); [congruence|]. destruct (topic s); [congruence|].
    reflexivity. }
  unfold connectToMQTT, bind, gets. simpl. rewrite Hg. reflexivity.
Qed.

(** A callback subscribes only on its own client, for the topic that client
    closed over. *)
Lemma callback_subscribes c0 cb s c' tp' :
  In (ClientSubscribe c' tp')
     (emitted (callback JSON_parse Number_toString c0 cb s)) ->
  c' = c0 /\ tp' = client_topic c0.
Proof.
  intros Hin. destruct cb as [|err|topic_ msg|message|]; unfold callback in Hin.
  - simpl in Hin. destruct Hin as [Heq|[]]. now inversion Heq.
  - destruct err; simpl in Hin; now destruct Hin.
  - apply onMessage_emits_alerts in Hin. discriminate.
  - simpl in Hin. now destruct Hin.
  - simpl in Hin. now destruct Hin.
Qed.

(** No handler lets an exception escape: every event completes normally. *)
Lemma handle_completes e s :
  completion (handle JSON_parse Number_toString e s) = Normal tt.
Proof.
  destruct e as [text|text| | |status|c cb]; unfold handle.
  - reflexivity.
  - reflexivity.
  - unfold connectToMQTT, bind, gets. simpl.
    destruct (is_empty (ip s) || is_empty (topic s)); reflexivity.
  - now rewrite resetConnection_run.
  - unfold onPermission, bind. simpl.
    destruct (negb (String.eqb status "granted")); reflexivity.
  - destruct cb as [|err|topic_ msg|message|]; unfold callback; try reflexivity.
    + now destruct err.
    + now destruct (onMessage_logs c topic_ msg s) as (entries & _ & ->).
Qed.

(** C8.  Every transport callback (connect, subscribe result, message,
    error, close) leaves the log it found as a prefix of the log it
    leaves: entries are only added at the end, none is reordered or
    changed.  The same holds for every other event except the disconnect
    button, which is the one event that empties the log. *)
Theorem statusLog_append_only :
  (forall c cb s, exists entries,
      statusLog (final (callback JSON_parse Number_toString c cb s))
        = statusLog s ++ entries)
  /\ (forall e s, e <> PressDisconnect ->
        exists entries,
          statusLog (final (handle JSON_parse Number_toString e s))
            = statusLog s ++ entries)
  /\ (forall s,
        statusLog (final (handle JSON_parse Number_toString PressDisconnect s)) = []).
Proof.
  split; [exact callback_logs|]. split.
  - intros e s He. destruct e as [text|text| | |status|c cb]; unfold handle.
    + exists []. simpl. now rewrite app_nil_r.
    + exists []. simpl. now rewrite app_nil_r.
    + exists []. rewrite app_nil_r. unfold connectToMQTT, bind, gets. simpl.
      destruct (is_empty (ip s) || is_empty (topic s)); reflexivity.
    + congruence.
    + exists []. rewrite app_nil_r. unfold onPermission, bind. simpl.
      destruct (negb (String.eqb status "granted")); reflexivity.
    + apply callback_logs.
  - intros s. unfold handle. now rewrite resetConnection_run.
Qed.

(** C10.  After [resetConnection] the topic is [mqtt/status], whatever it
    was; the first render starts with the topic [status], so a disconnect
    does not bring the monitor back to its initial configuration. *)
Theorem resetConnection_topic s :
  topic (final (resetConnection s)) = "mqtt/status"
  /\ topic initial = "status"
  /\ topic (final (resetConnection s)) <> topic initial
  /\ final (resetConnection initial) <> initial.
Proof.
  rewrite !resetConnection_run. simpl. repeat split; discriminate.
Qed.

(** *** Helpers on event sequences *)

Lemma logged_app s l1 l2 :
  logged (logged s l1) l2 = logged s (l1 ++ l2).
Proof. unfold logged; simpl. now rewrite <- app_assoc. Qed.

Lemma logged_nil s : logged s [] = s.
Proof. destruct s; unfold logged; simpl. now rewrite app_nil_r. Qed.

Lemma run_cons e rest s :
  run JSON_parse Number_toString (e :: rest) s =
    (fst (run JSON_parse Number_toString rest
            (final (handle JSON_parse Number_toString e s))),
     emitted (handle JSON_parse Number_toString e s)
       ++ snd (run JSON_parse Number_toString rest
                 (final (handle JSON_parse Number_toString e s)))).
Proof.
  cbn [run].
  now destruct (run JSON_parse Number_toString rest
                  (final (handle JSON_parse Number_toString e s))).
Qed.

Lemma run_app l1 l2 s :
  run JSON_parse Number_toString (l1 ++ l2) s =
    (fst (run JSON_parse Number_toString l2
            (fst (run JSON_parse Number_toString l1 s))),
     snd (run JSON_parse Number_toString l1 s)
       ++ snd (run JSON_parse Number_toString l2
                 (fst (run JSON_parse Number_toString l1 s)))).
Proof.
  revert s. induction l1 as [|e l1 IH]; intros s.
  - cbn [app run fst snd].
    now destruct (run JSON_parse Number_toString l2 s).
  - rewrite <- app_comm_cons, !run_cons, IH. cbn [fst snd].
    now rewrite app_assoc.
Qed.

(** What [onMessage] logs and emits is fixed by the client and the message;
    the state only supplies the log it is appended to. *)
Lemma onMessage_uniform c topic_ msg :
  exists entries effs,
    (forall s,
       onMessage JSON_parse Number_toString c topic_ msg s
         = mkOutcome (logged s (raw_entry topic_ msg :: entries)) effs (Normal tt))
    /\ ((entries = [] /\ effs = [])
        \/ (entries = [invalid_entry msg] /\ effs = [])
        \/ (exists name,
              entries = [offline_entry name]
              /\ effs = [alert_for c (offline_body name)])).
Proof.
  destruct (JSON_parse msg) as [data|] eqn:Hp.
  - destruct (Get data "status") as [status|] eqn:Hst.
    + destruct (strict_eq_string status "offline") eqn:Heq.
      * destruct (Get data "stationId") as [sid|] eqn:Hsid.
        -- destruct (ToString Number_toString (or_else sid "Unknown Station"))
             as [name|] eqn:Hname.
           ++ exists [offline_entry name], [alert_for c (offline_body name)].
              split; [|right; right; now exists name].
              intros s. rewrite (onMessage_parsed _ _ _ s _ Hp), Hst, Heq, Hsid, Hname.
              reflexivity.
           ++ exists [invalid_entry msg], []. split; [|right; left; now split].
              intros s. rewrite (onMessage_parsed _ _ _ s _ Hp), Hst, Heq, Hsid, Hname.
              reflexivity.
        -- exists [invalid_entry msg], []. split; [|right; left; now split].
           intros s. rewrite (onMessage_parsed _ _ _ s _ Hp), Hst, Heq, Hsid.
           reflexivity.
      * exists [], []. split; [|left; now split].
        intros s. now rewrite (onMessage_parsed _ _ _ s _ Hp), Hst, Heq.
    + exists [invalid_entry msg], []. split; [|right; left; now split].
      intros s. now rewrite (onMessage_parsed _ _ _ s _ Hp), Hst.
  - exists [invalid_entry msg], []. split; [|right; left; now split].
    intros s. now rewrite (onMessage_syntax_error _ _ _ s Hp).
Qed.

(** The same for every transport callback, which may also set [connected]. *)
Lemma callback_uniform c cb :
  exists entries effs,
    forall s,
      callback JSON_parse Number_toString c cb s
        = mkOutcome
            (mkApp (ip s) (topic s) (flag_after cb (connected s))
               (statusLog s ++ entries) (clientRef s) (permissionGranted s))
            effs (Normal tt).
Proof.
  destruct cb as [|err|topic_ msg|message|]; unfold callback.
  - exists [("✅ Connected to " ++ brokerUrl c)%string],
      [ClientSubscribe c (client_topic c)].
    reflexivity.
  - destruct err as [message|].
    + exists [("❌ Subscription failed: " ++ message)%string], []. reflexivity.
    + exists [("📡 Subscribed to " ++ dquote ++ client_topic c ++ dquote)%string], [].
      reflexivity.
  - destruct (onMessage_uniform c topic_ msg) as (entries & effs & H & _).
    exists (raw_entry topic_ msg :: entries), effs. intros s. now rewrite H.
  - exists [("❌ MQTT Error: " ++ message)%string], []. reflexivity.
  - exists [("🔌 Disconnected from " ++ brokerUrl c)%string], []. reflexivity.
Qed.

Lemma connectToMQTT_blocked s :
  ip s = EmptyString \/ topic s = EmptyString ->
  connectToMQTT s =
    mkOutcome s [AlertAlert "Error" "Please enter both IP address and topic"]
      (Normal tt).
Proof.
  intros H.
  assert (Hg : is_empty (ip s) || is_empty (topic s) = true).
  { destruct H as [-> | ->]; simpl; [reflexivity|apply orb_true_r]. }
  unfold connectToMQTT, bind, gets. simpl. rewrite Hg. reflexivity.
Qed.

Lemma configured_or_not s :
  (ip s = EmptyString \/ topic s = EmptyString)
  \/ (ip s <> EmptyString /\ topic s <> EmptyString).
Proof.
  destruct (ip s); [now left; left|].
  destruct (topic s); [now left; right|].
  right. split; discriminate.
Qed.

(** [connectToMQTT] touches nothing but [clientRef]. *)
Lemma connectToMQTT_frame s :
  ip (final (connectToMQTT s)) = ip s
  /\ topic (final (connectToMQTT s)) = topic s
  /\ connected (final (connectToMQTT s)) = connected s
  /\ statusLog (final (connectToMQTT s)) = statusLog s
  /\ permissionGranted (final (connectToMQTT s)) = permissionGranted s.
Proof.
  destruct (configured_or_not s) as [H|[Hi Ht]].
  - rewrite (connectToMQTT_blocked s H). now simpl.
  - rewrite (connectToMQTT_run s Hi Ht). now simpl.
Qed.

Lemma onPermission_run status s :
  onPermission status s =
    mkOutcome
      (mkApp (ip s) (topic s) (connected s) (statusLog s) (clientRef s)
         (String.eqb status "granted"))
      (if String.eqb status "granted" then []
       else [AlertAlert "Permission denied" "Local notifications will not be shown."])
      (Normal tt).
Proof.
  unfold onPermission, bind. simpl.
  destruct (String.eqb status "granted"); reflexivity.
Qed.

(** Every event but the disconnect button only adds to the log. *)
Lemma handle_logs e s :
  e <> PressDisconnect ->
  exists entries,
    statusLog (final (handle JSON_parse Number_toString e s)) = statusLog s ++ entries.
Proof.
  intros He. destruct e as [text|text| | |status|c cb]; unfold handle.
  - exists []. simpl. now rewrite app_nil_r.
  - exists []. simpl. now rewrite app_nil_r.
  - exists []. rewrite app_nil_r. apply connectToMQTT_frame.
  - congruence.
  - exists []. rewrite onPermission_run. simpl. now rewrite app_nil_r.
  - apply callback_logs.
Qed.

(** The log an event leaves depends on the log it found and on nothing else
    in the state. *)
Lemma handle_log_only e s1 s2 :
  statusLog s1 = statusLog s2 ->
  statusLog (final (handle JSON_parse Number_toString e s1))
    = statusLog (final (handle JSON_parse Number_toString e s2)).
Proof.
  intros H. destruct e as [text|text| | |status|c cb]; unfold handle.
  - exact H.
  - exact H.
  - destruct (connectToMQTT_frame s1) as (_ & _ & _ & -> & _).
    now destruct (connectToMQTT_frame s2) as (_ & _ & _ & -> & _).
  - now rewrite !resetConnection_run.
  - now rewrite !onPermission_run.
  - destruct (callback_uniform c cb) as (entries & effs & Hcb).
    rewrite !Hcb. simpl. now rewrite H.
Qed.

Lemma run_log_only events s1 s2 :
  statusLog s1 = statusLog s2 ->
  statusLog (fst (run JSON_parse Number_toString events s1))
    = statusLog (fst (run JSON_parse Number_toString events s2)).
Proof.
  revert s1 s2. induction events as [|e rest IH]; intros s1 s2 H.
  - exact H.
  - rewrite !run_cons. cbn [fst]. apply IH. now apply handle_log_only.
Qed.

Lemma rows_from_app index l1 l2 :
  rows_from index (l1 ++ l2)
    = rows_from index l1 ++ rows_from (index + length l1) l2.
Proof.
  revert index. induction l1 as [|x l1 IH]; intros index; simpl.
  - now rewrite Nat.add_0_r.
  - rewrite IH. now rewrite Nat.add_succ_r.
Qed.

Lemma rows_from_text index l : map row_text (rows_from index l) = l.
Proof.
  revert index. induction l as [|x l IH]; intros index; simpl; [reflexivity|].
  now rewrite IH.
Qed.

Lemma rows_from_key index l :
  map row_key (rows_from index l) = seq index (length l).
Proof.
  revert index. induction l as [|x l IH]; intros index; simpl; [reflexivity|].
  now rewrite IH.
Qed.

Lemma count_app {A : Type} (p : A -> bool) l1 l2 :
  count p (l1 ++ l2) = (count p l1 + count p l2)%nat.
Proof. unfold count. now rewrite filter_app, length_app. Qed.

(** A subscribe request is only ever the reply to a [connect] callback, on
    the client that callback belongs to and for the topic it closed over. *)
Lemma handle_subscribe_origin e s c' tp' :
  In (ClientSubscribe c' tp') (emitted (handle JSON_parse Number_toString e s)) ->
  e = Transport c' CbConnect /\ tp' = client_topic c'.
Proof.
  intros Hin. destruct e as [text|text| | |status|c0 cb]; unfold handle in Hin.
  - now simpl in Hin.
  - now simpl in Hin.
  - destruct (configured_or_not s) as [H|[Hi Ht]].
    + rewrite (connectToMQTT_blocked s H) in Hin. simpl in Hin.
      destruct Hin as [Heq|[]]. discriminate.
    + rewrite (connectToMQTT_run s Hi Ht) in Hin. simpl in Hin.
      destruct Hin as [Heq|[]]. discriminate.
  - rewrite resetConnection_run in Hin. simpl in Hin.
    destruct (clientRef s); simpl in Hin; [|contradiction].
    destruct Hin as [Heq|[]]. discriminate.
  - rewrite onPermission_run in Hin. simpl in Hin.
    destruct (String.eqb status "granted"); simpl in Hin; [contradiction|].
    destruct Hin as [Heq|[]]. discriminate.
  - destruct cb as [|err|topic_ msg|message|]; unfold callback in Hin.
    + simpl in Hin. destruct Hin as [Heq|[]]. inversion Heq. now split.
    + destruct err; simpl in Hin; now destruct Hin.
    + apply onMessage_emits_alerts in Hin. discriminate.
    + simpl in Hin. now destruct Hin.
    + simpl in Hin. now destruct Hin.
Qed.

Lemma run_subscribe_origin events s c' tp' :
  In (ClientSubscribe c' tp') (snd (run JSON_parse Number_toString events s)) ->
  In (Transport c' CbConnect) events /\ tp' = client_topic c'.
Proof.
  revert s. induction events as [|e rest IH]; intros s Hin.
  - now simpl in Hin.
  - rewrite run_cons in Hin. cbn [snd] in Hin.
    apply in_app_or in Hin. destruct Hin as [Hin|Hin].
    + destruct (handle_subscribe_origin _ _ _ _ Hin) as [-> ->].
      split; [now left|reflexivity].
    + destruct (IH _ Hin) as [Hev ->]. split; [now right|reflexivity].
Qed.

(** C7, amended.  From any state, [resetConnection] followed by entering a
    new (non-empty) host and topic and [connectToMQTT] leaves an empty log,
    so no entry from before the disconnect survives; it ends the stored
    client if there was one, opens one connection to the new host, and the
    new client answers its [connect] event by subscribing to the new topic.
    No callback of the new client ever subscribes to any other topic, and
    the sequence itself issues no subscribe request.  In whatever follows,
    every subscribe request is the reply to a [connect] event of some
    client, for the topic that client was created with: the new topic is
    the only one requested as long as only the new client calls back, and
    a request for an old topic needs a [connect] event of an earlier
    client, one that was overwritten in [clientRef] without being ended. *)
Theorem reconnect_is_fresh s host tp :
  host <> EmptyString -> tp <> EmptyString ->
  let url := ("ws://" ++ host ++ ":9001/mqtt")%string in
  let c := mkClient url tp (permissionGranted s) in
  let r := run JSON_parse Number_toString
             [PressDisconnect; ChangeIp host; ChangeTopic tp; PressConnect] s in
  statusLog (fst r) = []
  /\ (forall entry, In entry (statusLog s) -> ~ In entry (statusLog (fst r)))
  /\ fst r = mkApp host tp false [] (Some c) (permissionGranted s)
  /\ snd r = match clientRef s with
             | Some old => [ClientEnd old]
             | None => []
             end ++ [MqttConnect url]
  /\ (forall s',
        emitted (callback JSON_parse Number_toString c CbConnect s')
          = [ClientSubscribe c tp])
  /\ (forall cb s' c' tp',
        In (ClientSubscribe c' tp')
           (emitted (callback JSON_parse Number_toString c cb s')) ->
        tp' = tp)
  /\ (forall c0 cb s' c' tp',
        In (ClientSubscribe c' tp')
           (emitted (callback JSON_parse Number_toString c0 cb s')) ->
        c' = c0 /\ tp' = client_topic c0)
  /\ (forall later c' tp',
        In (ClientSubscribe c' tp')
           (snd (run JSON_parse Number_toString later (fst r))) ->
        In (Transport c' CbConnect) later /\ tp' = client_topic c')
  /\ (forall later,
        (forall c' cb, In (Transport c' cb) later -> c' = c) ->
        forall c' tp',
          In (ClientSubscribe c' tp')
             (snd (run JSON_parse Number_toString later (fst r))) ->
          tp' = tp).
Proof.
  intros Hh Ht url c r.
  assert (Hr : r = (mkApp host tp false [] (Some c) (permissionGranted s),
                    match clientRef s with
                    | Some old => [ClientEnd old]
                    | None => []
                    end ++ [MqttConnect url])).
  { subst r. unfold run, handle. rewrite resetConnection_run.
    cbn [final emitted setIp setTopic modify cleared ip topic connected
         statusLog clientRef permissionGranted].
    rewrite connectToMQTT_run by assumption.
    cbn [final emitted ip topic connected statusLog clientRef permissionGranted].
    now rewrite !app_nil_r. }
  rewrite Hr. cbn [fst snd statusLog].
  split; [reflexivity|]. split; [intros entry _ []|].
  split; [reflexivity|]. split; [reflexivity|]. split; [reflexivity|].
  split; [|split; [|split]].
  - intros cb s' c' tp' Hin.
    now destruct (callback_subscribes _ _ _ _ _ Hin) as [_ ->].
  - intros c0 cb s' c' tp' Hin. exact (callback_subscribes _ _ _ _ _ Hin).
  - intros later c' tp' Hin. exact (run_subscribe_origin _ _ _ _ Hin).
  - intros later Honly c' tp' Hin.
    destruct (run_subscribe_origin _ _ _ _ Hin) as [Hev ->].
    now rewrite (Honly _ _ Hev).
Qed.

(** *** Properties beyond the claims *)

(** X1.  A transport callback, whichever client it belongs to, leaves the
    host, the topic, the stored handle and the permission flag alone.  Of
    the state it can change only the log and [connected], and the latter
    only on [connect] (to true) and [close] (to false): a failed
    subscription, an error or a message never marks the monitor
    disconnected. *)
Theorem callback_touches_flag_and_log c cb s :
  let s' := final (callback JSON_parse Number_toString c cb s) in
  ip s' = ip s
  /\ topic s' = topic s
  /\ clientRef s' = clientRef s
  /\ permissionGranted s' = permissionGranted s
  /\ connected s' = flag_after cb (connected s).
Proof.
  destruct (callback_uniform c cb) as (entries & effs & H).
  rewrite H. now simpl.
Qed.

(** X2.  What a callback asks of the outside world is fixed when its client
    is created: it does not depend on the state the callback runs in.  In
    particular a later answer to the permission request does not change
    which sink a client's alerts go to; every alert of a callback is the
    offline alert of its own client's closure. *)
Theorem callback_requests_ignore_state c cb s s' :
  emitted (callback JSON_parse Number_toString c cb s)
    = emitted (callback JSON_parse Number_toString c cb s')
  /\ (forall status,
        emitted (callback JSON_parse Number_toString c cb
                   (final (onPermission status s)))
          = emitted (callback JSON_parse Number_toString c cb s))
  /\ (forall e,
        In e (emitted (callback JSON_parse Number_toString c cb s)) ->
        is_alert e = true ->
        exists name, e = alert_for c (offline_body name)).
Proof.
  split; [|split].
  - destruct (callback_uniform c cb) as (entries & effs & H). now rewrite !H.
  - intros status.
    destruct (callback_uniform c cb) as (entries & effs & H). now rewrite !H.
  - intros e Hin Ha. destruct cb as [|err|topic_ msg|message|];
      unfold callback in Hin.
    + simpl in Hin. destruct Hin as [<-|[]]. discriminate.
    + destruct err; simpl in Hin; now destruct Hin.
    + destruct (onMessage_uniform c topic_ msg) as (entries & effs & H & Hshape).
      rewrite H in Hin. simpl in Hin.
      destruct Hshape as [[_ ->]|[[_ ->]|(name & _ & ->)]];
        try now destruct Hin.
      destruct Hin as [<-|[]]. now exists name.
    + simpl in Hin. now destruct Hin.
    + simpl in Hin. now destruct Hin.
Qed.

(** X3.  [connectToMQTT] opens a connection exactly when both the host and
    the topic are non-empty; it then opens exactly one, to
    [ws://host:9001/mqtt], and stores a handle that carries the topic and
    the permission flag of that moment.  In either case the host, the
    topic, the log, [connected] and the permission flag are left as they
    were: the monitor is not marked connected until the transport says so. *)
Theorem connectToMQTT_opens_iff_configured s :
  ((exists url, In (MqttConnect url) (emitted (connectToMQTT s)))
     <-> ip s <> EmptyString /\ topic s <> EmptyString)
  /\ (ip s <> EmptyString -> topic s <> EmptyString ->
        emitted (connectToMQTT s)
          = [MqttConnect ("ws://" ++ ip s ++ ":9001/mqtt")%string]
        /\ clientRef (final (connectToMQTT s))
             = Some (mkClient ("ws://" ++ ip s ++ ":9001/mqtt")%string (topic s)
                       (permissionGranted s)))
  /\ ip (final (connectToMQTT s)) = ip s
  /\ topic (final (connectToMQTT s)) = topic s
  /\ connected (final (connectToMQTT s)) = connected s
  /\ statusLog (final (connectToMQTT s)) = statusLog s
  /\ permissionGranted (final (connectToMQTT s)) = permissionGranted s.
Proof.
  split; [|split; [|apply connectToMQTT_frame]].
  - destruct (configured_or_not s) as [H|[Hi Ht]].
    + rewrite (connectToMQTT_blocked s H). simpl. split.
      * intros (url & [Heq|[]]). discriminate.
      * intros [Hi Ht]. destruct H; contradiction.
    + rewrite (connectToMQTT_run s Hi Ht). simpl. split; [now intros _|].
      intros _. eexists. now left.
  - intros Hi Ht. rewrite (connectToMQTT_run s Hi Ht). now simpl.
Qed.

(** X4.  The Connect button is disabled by [connected] only, and pressing
    it does not set [connected]: while the button is enabled and both
    fields are filled in, it can be pressed again before the transport
    answers.  Each press opens a connection and overwrites the stored
    handle without ending the one before, so after two presses a
    disconnect ends one client for two connections opened. *)
Theorem connect_twice_ends_once s :
  ip s <> EmptyString -> topic s <> EmptyString ->
  offered (render s) PressConnect = true ->
  let url := ("ws://" ++ ip s ++ ":9001/mqtt")%string in
  let c := mkClient url (topic s) (permissionGranted s) in
  let r := run JSON_parse Number_toString
             [PressConnect; PressConnect; PressDisconnect] s in
  offered (render (final (handle JSON_parse Number_toString PressConnect s)))
    PressConnect = true
  /\ snd r = [MqttConnect url; MqttConnect url; ClientEnd c]
  /\ count is_open (snd r) = 2%nat
  /\ count is_end (snd r) = 1%nat
  /\ (forall old, clientRef s = Some old -> old <> c -> ~ In (ClientEnd old) (snd r)).
Proof.
  intros Hi Ht Hoff url c r.
  assert (Hc : connectToMQTT s =
                 mkOutcome (mkApp (ip s) (topic s) (connected s) (statusLog s)
                              (Some c) (permissionGranted s))
                   [MqttConnect url] (Normal tt)).
  { now rewrite (connectToMQTT_run s Hi Ht). }
  assert (Hr : snd r = [MqttConnect url; MqttConnect url; ClientEnd c]).
  { subst r. rewrite !run_cons. unfold handle. cbn [snd fst run].
    rewrite Hc. cbn [final emitted].
    rewrite connectToMQTT_run by assumption.
    cbn [final emitted ip topic permissionGranted].
    rewrite resetConnection_run. reflexivity. }
  split.
  - unfold handle. rewrite Hc. exact Hoff.
  - rewrite Hr. repeat split.
    intros old _ Hne [Heq|[Heq|[Heq|[]]]]; try discriminate.
    inversion Heq. congruence.
Qed.

(** X5.  [resetConnection] empties the host field, so a Connect pressed
    right after a Disconnect never reaches the broker: whatever the state
    was, it only raises the missing-configuration alert. *)
Theorem connect_after_reset_is_blocked s :
  run JSON_parse Number_toString [PressDisconnect; PressConnect] s
    = (cleared s,
       match clientRef s with
       | Some old => [ClientEnd old]
       | None => []
       end ++ [AlertAlert "Error" "Please enter both IP address and topic"])
  /\ count is_open
       (snd (run JSON_parse Number_toString [PressDisconnect; PressConnect] s)) = 0%nat.
Proof.
  assert (H : run JSON_parse Number_toString [PressDisconnect; PressConnect] s
              = (cleared s,
                 match clientRef s with
                 | Some old => [ClientEnd old]
                 | None => []
                 end ++ [AlertAlert "Error" "Please enter both IP address and topic"])).
  { rewrite !run_cons. unfold handle. cbn [run fst snd].
    rewrite resetConnection_run. cbn [final emitted].
    rewrite (connectToMQTT_blocked (cleared s)) by (now left).
    cbn [final emitted]. now rewrite app_nil_r. }
  rewrite H. split; [reflexivity|]. cbn [snd].
  rewrite count_app. now destruct (clientRef s).
Qed.

(** X6.  [resetConnection] calls [end] on the stored handle and forgets it,
    so a second Disconnect in a row calls [end] on nothing: two presses
    emit what one does, one [end] if a handle was stored and none
    otherwise, and leave the same state. *)
Theorem disconnect_twice_ends_once s :
  run JSON_parse Number_toString [PressDisconnect; PressDisconnect] s
    = run JSON_parse Number_toString [PressDisconnect] s
  /\ snd (run JSON_parse Number_toString [PressDisconnect; PressDisconnect] s)
       = match clientRef s with
         | Some c => [ClientEnd c]
         | None => []
         end
  /\ count is_end
       (snd (run JSON_parse Number_toString [PressDisconnect; PressDisconnect] s))
       = held s.
Proof.
  assert (H : run JSON_parse Number_toString [PressDisconnect; PressDisconnect] s
              = (cleared s,
                 match clientRef s with
                 | Some c => [ClientEnd c]
                 | None => []
                 end)).
  { rewrite !run_cons. unfold handle. cbn [run fst snd].
    rewrite !resetConnection_run. cbn [final emitted cleared clientRef].
    now rewrite app_nil_r. }
  rewrite H. split; [|split].
  - rewrite run_cons. unfold handle. cbn [run fst snd].
    rewrite resetConnection_run. cbn [final emitted]. now rewrite app_nil_r.
  - reflexivity.
  - unfold held. now destruct (clientRef s).
Qed.

(** X7.  Whatever the payload, [onMessage] completes normally and does one
    of three things: it logs the raw line only; it logs the raw line and
    the invalid-format line; or it logs the raw line and an offline line
    and raises the one alert that goes with it.  The raw line always comes
    first, an alert never comes without its offline line, and the
    invalid-format line never comes with an alert. *)
Theorem onMessage_three_outcomes c topic_ msg s :
  let o := onMessage JSON_parse Number_toString c topic_ msg s in
  completion o = Normal tt
  /\ ((final o = logged s [raw_entry topic_ msg] /\ emitted o = [])
      \/ (final o = logged s [raw_entry topic_ msg; invalid_entry msg]
          /\ emitted o = [])
      \/ (exists name,
            final o = logged s [raw_entry topic_ msg; offline_entry name]
            /\ emitted o = [alert_for c (offline_body name)])).
Proof.
  destruct (onMessage_uniform c topic_ msg) as (entries & effs & H & Hshape).
  rewrite H. simpl. split; [reflexivity|].
  destruct Hshape as [[-> ->]|[[-> ->]|(name & -> & ->)]].
  - now left.
  - right; left. now split.
  - right; right. now exists name.
Qed.

(** X8.  Offline reports are not de-duplicated: delivering the same offline
    payload [n] times raises [n] alerts and appends [n] pairs of raw line
    and offline line, nothing being suppressed however often it repeats. *)
Theorem offline_alerts_repeat c topic_ msg members name n s :
  JSON_parse msg = Some (JObject members) ->
  lookup "status" members = Some (JString "offline") ->
  ToString Number_toString (or_else (lookup "stationId" members) "Unknown Station")
    = Normal name ->
  run JSON_parse Number_toString (repeat (Transport c (CbMessage topic_ msg)) n) s
    = (logged s (concat (repeat [raw_entry topic_ msg; offline_entry name] n)),
       repeat (alert_for c (offline_body name)) n).
Proof.
  intros Hp Hst Hname.
  assert (Hone : forall s0,
            onMessage JSON_parse Number_toString c topic_ msg s0
              = mkOutcome (logged s0 [raw_entry topic_ msg; offline_entry name])
                  [alert_for c (offline_body name)] (Normal tt)).
  { intros s0. rewrite (onMessage_parsed _ _ _ s0 _ Hp). simpl.
    rewrite Hst. simpl. now rewrite Hname. }
  revert s. induction n as [|n IH]; intros s.
  - simpl. now rewrite logged_nil.
  - cbn [repeat]. rewrite run_cons. unfold handle at 1 2 3, callback.
    rewrite Hone. cbn [final emitted]. rewrite IH. cbn [fst snd concat].
    now rewrite logged_app.
Qed.

(** X9.  An offline report whose [stationId] is an object with a member
    named [toString] raises no alert: building the alert text throws
    inside the guarded block, before anything is sent, and the handler
    logs the payload as an invalid message instead. *)
Theorem onMessage_unprintable_station c topic_ msg s members inner :
  JSON_parse msg = Some (JObject members) ->
  lookup "status" members = Some (JString "offline") ->
  lookup "stationId" members = Some (JObject inner) ->
  has_key "toString" inner = true ->
  onMessage JSON_parse Number_toString c topic_ msg s
    = mkOutcome (logged s [raw_entry topic_ msg; invalid_entry msg]) [] (Normal tt).
Proof.
  intros Hp Hst Hsid Hkey.
  rewrite (onMessage_parsed _ _ _ s _ Hp). simpl.
  rewrite Hst. simpl. rewrite Hsid. simpl. now rewrite Hkey.
Qed.

(** X10.  A payload that parses and does not report [offline] is logged as
    received and nothing more, whatever its shape: a number, a string, an
    array, a boolean or an object without a matching [status] is not
    flagged as invalid.  The one exception is the value [null], on which
    reading [status] throws, so that it gets the invalid-format line. *)
Theorem onMessage_not_offline_log c topic_ msg s data :
  JSON_parse msg = Some data ->
  Get data "status" <> Normal (Some (JString "offline")) ->
  final (onMessage JSON_parse Number_toString c topic_ msg s)
    = logged s (raw_entry topic_ msg
                  :: match data with
                     | JNull => [invalid_entry msg]
                     | _ => []
                     end).
Proof.
  intros Hp Hst. rewrite (onMessage_parsed _ _ _ s _ Hp).
  destruct (Get data "status") as [status|e] eqn:Hget.
  - destruct (strict_eq_string status "offline") eqn:Heq.
    + apply strict_eq_string_true in Heq. now subst.
    + destruct data; try reflexivity. discriminate.
  - destruct data; try discriminate. reflexivity.
Qed.

(** X11.  The permission flag changes only when the permission request
    resolves, and then it is true exactly for the status [granted]; the
    denial alert is raised exactly when it is not.  No button, edit or
    transport callback touches the flag. *)
Theorem permission_follows_request e s :
  permissionGranted (final (handle JSON_parse Number_toString e s))
    = match e with
      | PermissionResolved status => String.eqb status "granted"
      | _ => permissionGranted s
      end
  /\ (forall status,
        alerts (emitted (handle JSON_parse Number_toString (PermissionResolved status) s))
          = if String.eqb status "granted" then []
            else [AlertAlert "Permission denied"
                    "Local notifications will not be shown."]).
Proof.
  split.
  - destruct e as [text|text| | |status|c cb]; unfold handle.
    + reflexivity.
    + reflexivity.
    + apply connectToMQTT_frame.
    + now rewrite resetConnection_run.
    + now rewrite onPermission_run.
    + destruct (callback_uniform c cb) as (entries & effs & H). now rewrite H.
  - intros status. unfold handle. rewrite onPermission_run. simpl.
    now destruct (String.eqb status "granted").
Qed.

Lemma handle_keeps_handle_well_formed e s :
  handle_well_formed s ->
  handle_well_formed (final (handle JSON_parse Number_toString e s)).
Proof.
  intros Hwf. destruct e as [text|text| | |status|c cb]; unfold handle.
  - exact Hwf.
  - exact Hwf.
  - destruct (configured_or_not s) as [H|[Hi Ht]].
    + now rewrite (connectToMQTT_blocked s H).
    + rewrite (connectToMQTT_run s Hi Ht). unfold handle_well_formed. simpl.
      exists (ip s). now repeat split.
  - rewrite resetConnection_run. exact I.
  - rewrite onPermission_run. exact Hwf.
  - destruct (callback_uniform c cb) as (entries & effs & H). rewrite H.
    exact Hwf.
Qed.

(** X12.  Whatever sequence of edits, presses, permission answers and
    transport callbacks the monitor goes through from its first render, a
    handle stored in [clientRef] was always opened on a URL
    [ws://host:9001/mqtt] with a non-empty host and for a non-empty topic. *)
Theorem stored_handle_is_well_formed events :
  handle_well_formed (fst (run JSON_parse Number_toString events initial)).
Proof.
  assert (H : forall s, handle_well_formed s ->
                handle_well_formed (fst (run JSON_parse Number_toString events s))).
  { induction events as [|e rest IH]; intros s Hwf.
    - exact Hwf.
    - rewrite run_cons. cbn [fst]. apply IH.
      now apply handle_keeps_handle_well_formed. }
  apply H. exact I.
Qed.

(** X13.  The log box shows the log as it is: one row per entry, in order,
    keyed by position from zero.  Every event other than Disconnect keeps
    the rows already shown, key and text, and at most adds rows after
    them; Disconnect empties the box. *)
Theorem log_rows_follow_log s :
  map row_text (log_rows (render s)) = statusLog s
  /\ map row_key (log_rows (render s)) = seq 0 (length (statusLog s))
  /\ (forall e, e <> PressDisconnect ->
        exists more,
          log_rows (render (final (handle JSON_parse Number_toString e s)))
            = log_rows (render s) ++ more)
  /\ log_rows (render (final (handle JSON_parse Number_toString PressDisconnect s)))
       = [].
Proof.
  split; [apply rows_from_text|]. split; [apply rows_from_key|]. split.
  - intros e He. destruct (handle_logs e s He) as (entries & H).
    unfold render. cbn [log_rows]. rewrite H, rows_from_app. now eexists.
  - unfold handle. now rewrite resetConnection_run.
Qed.

(** X14.  Over a sequence of events with no Disconnect in it, the log only
    grows: the log at the start is a prefix of the log at the end. *)
Theorem run_without_disconnect_extends_log events s :
  Forall (fun e => e <> PressDisconnect) events ->
  exists entries,
    statusLog (fst (run JSON_parse Number_toString events s))
      = statusLog s ++ entries.
Proof.
  intros Hall. revert s. induction Hall as [|e rest He _ IH]; intros s.
  - exists []. simpl. now rewrite app_nil_r.
  - rewrite run_cons. cbn [fst].
    destruct (handle_logs e s He) as (first & Hfirst).
    destruct (IH (final (handle JSON_parse Number_toString e s))) as (more & Hmore).
    exists (first ++ more). now rewrite Hmore, Hfirst, app_assoc.
Qed.

(** X15.  After a Disconnect the log depends only on what happened since:
    two histories that end with the same events after their last
    Disconnect show the same log, whatever came before and whatever state
    they started in. *)
Theorem log_forgets_what_preceded_disconnect before before' after s s' :
  statusLog (fst (run JSON_parse Number_toString
                    (before ++ PressDisconnect :: after) s))
    = statusLog (fst (run JSON_parse Number_toString
                        (before' ++ PressDisconnect :: after) s')).
Proof.
  rewrite !run_app. cbn [fst]. rewrite !run_cons. cbn [fst].
  apply run_log_only. unfold handle. now rewrite !resetConnection_run.
Qed.

Lemma handle_subscribes e s :
  count is_subscribe (emitted (handle JSON_parse Number_toString e s))
    = if is_connect_callback e then 1%nat else 0%nat.
Proof.
  destruct e as [text|text| | |status|c cb]; unfold handle.
  - reflexivity.
  - reflexivity.
  - destruct (configured_or_not s) as [H|[Hi Ht]].
    + now rewrite (connectToMQTT_blocked s H).
    + now rewrite (connectToMQTT_run s Hi Ht).
  - rewrite resetConnection_run. simpl. now destruct (clientRef s).
  - rewrite onPermission_run. simpl. now destruct (String.eqb status "granted").
  - destruct cb as [|err|topic_ msg|message|]; unfold callback; try reflexivity.
    + now destruct err.
    + destruct (onMessage_uniform c topic_ msg) as (entries & effs & H & Hshape).
      rewrite H. simpl.
      destruct Hshape as [[_ ->]|[[_ ->]|(name & _ & ->)]]; try reflexivity.
      unfold alert_for. now destruct (client_permissionGranted c).
Qed.

(** X16.  Along any sequence of events the monitor sends exactly one
    subscribe request per [connect] callback it receives: every connection
    or reconnection the transport announces is answered by a subscription,
    and nothing else ever subscribes. *)
Theorem one_subscribe_per_connect events s :
  count is_subscribe (snd (run JSON_parse Number_toString events s))
    = count is_connect_callback events.
Proof.
  revert s. induction events as [|e rest IH]; intros s.
  - reflexivity.
  - rewrite run_cons. cbn [snd]. rewrite count_app, IH, handle_subscribes.
    unfold count. cbn [filter]. now destruct (is_connect_callback e).
Qed.

Lemma handle_balance e s :
  (count is_end (emitted (handle JSON_parse Number_toString e s))
     + held (final (handle JSON_parse Number_toString e s))
   <= count is_open (emitted (handle JSON_parse Number_toString e s)) + held s)%nat.
Proof.
  destruct e as [text|text| | |status|c cb]; unfold handle.
  - unfold held, count. simpl. lia.
  - unfold held, count. simpl. lia.
  - destruct (configured_or_not s) as [H|[Hi Ht]].
    + rewrite (connectToMQTT_blocked s H). unfold held, count. simpl. lia.
    + rewrite (connectToMQTT_run s Hi Ht). unfold held, count. simpl. lia.
  - rewrite resetConnection_run. unfold held, count. simpl.
    destruct (clientRef s); simpl; lia.
  - rewrite onPermission_run. unfold held, count. simpl.
    destruct (String.eqb status "granted"); simpl; lia.
  - destruct (callback_uniform c cb) as (entries & effs & H). rewrite H.
    unfold held. simpl.
    assert (Hend : count is_end effs = 0%nat).
    { specialize (H initial).
      assert (He : effs = emitted (callback JSON_parse Number_toString c cb initial))
        by now rewrite H.
      rewrite He. clear H He.
      destruct cb as [|err|topic_ msg|message|]; unfold callback; try reflexivity.
      - now destruct err.
      - destruct (onMessage_uniform c topic_ msg) as (en & ef & H & Hshape).
        rewrite H. simpl.
        destruct Hshape as [[_ ->]|[[_ ->]|(name & _ & ->)]]; try reflexivity.
        unfold alert_for. now destruct (client_permissionGranted c). }
    rewrite Hend. lia.
Qed.

(** X17.  From its first render on, the monitor never ends more clients
    than it opened connections: the number of [end] calls plus the handle
    still stored, if any, is at most the number of connections opened. *)
Theorem ends_never_exceed_opens events :
  (count is_end (snd (run JSON_parse Number_toString events initial))
     + held (fst (run JSON_parse Number_toString events initial))
   <= count is_open (snd (run JSON_parse Number_toString events initial)))%nat.
Proof.
  assert (H : forall s,
            (count is_end (snd (run JSON_parse Number_toString events s))
               + held (fst (run JSON_parse Number_toString events s))
             <= count is_open (snd (run JSON_parse Number_toString events s))
                + held s)%nat).
  { induction events as [|e rest IH]; intros s.
    - simpl. unfold count. simpl. lia.
    - rewrite run_cons. cbn [fst snd]. rewrite !count_app.
      specialize (IH (final (handle JSON_parse Number_toString e s))).
      pose proof (handle_balance e s). lia. }
  specialize (H initial). unfold held at 2 in H. simpl in H. lia.
Qed.

(** X18.  Disconnect does not detach the callbacks of the client it ends,
    and no callback checks that its client is the stored one: a callback
    does the same whatever [clientRef] holds.  So the [close] event of a
    client that was just ended is written into the log Disconnect has just
    emptied, which then holds that one line. *)
Theorem callbacks_outlive_disconnect c cb s r :
  final (callback JSON_parse Number_toString c cb (final (set_clientRef r s)))
    = final (set_clientRef r (final (callback JSON_parse Number_toString c cb s)))
  /\ emitted (callback JSON_parse Number_toString c cb (final (set_clientRef r s)))
       = emitted (callback JSON_parse Number_toString c cb s)
  /\ run JSON_parse Number_toString [PressDisconnect; Transport c CbClose] s
       = (mkApp EmptyString "mqtt/status" false
            [("🔌 Disconnected from " ++ brokerUrl c)%string] None
            (permissionGranted s),
          match clientRef s with
          | Some old => [ClientEnd old]
          | None => []
          end).
Proof.
  split; [|split].
  - destruct (callback_uniform c cb) as (entries & effs & H). now rewrite !H.
  - destruct (callback_uniform c cb) as (entries & effs & H). now rewrite !H.
  - rewrite !run_cons. unfold handle. cbn [run fst snd].
    rewrite resetConnection_run. unfold callback. simpl. now rewrite app_nil_r.
Qed.

End Properties.

(** ** Concrete payloads *)

(** C9.  The payload [null] is valid JSON and parses to [null]; reading
    [status] from it throws a TypeError, which the handler catches: it logs
    the raw message line and then the invalid-message-format line, and emits
    no alert. *)
Theorem onMessage_null_payload Number_toString c topic_ s :
  JSON.parse "null" = Some JNull
  /\ Get JNull "status" = Throw TypeError
  /\ onMessage JSON.parse Number_toString c topic_ "null" s
       = mkOutcome (logged s [raw_entry topic_ "null"; invalid_entry "null"]) []
           (Normal tt)
  /\ alerts (emitted (onMessage JSON.parse Number_toString c topic_ "null" s)) = [].
Proof.
  assert (Hp : JSON.parse "null" = Some JNull) by reflexivity.
  rewrite (onMessage_parsed JSON.parse Number_toString c topic_ "null" s JNull Hp).
  simpl. repeat split.
Qed.

(** [JSON.parse] on the payloads of the examples. *)
Example parse_pump3_offline :
  JSON.parse pump3_offline =
    Some (JObject [("status", JString "offline"); ("stationId", JString "Pump-3")]).
Proof. reflexivity. Qed.

Example parse_rejects :
  map JSON.parse ["oops"; EmptyString; "01"; "1."; "[1,]"; "{,}"; "nul"; "1 1"; "[[]"]
    = [None; None; None; None; None; None; None; None; None].
Proof. reflexivity. Qed.

Example parse_scalars :
  map JSON.parse [" true "; "false"; "-0"; "2.5e-3"; "[]"; "{}"]
    = [Some (JBool true); Some (JBool false);
       Some (JNumber (mkNumeral true 0 0));
       Some (JNumber (mkNumeral false 25 (-4)));
       Some (JArray []); Some (JObject [])].
Proof. reflexivity. Qed.

(** The scenario of the specification: connect to 10.0.0.5 on [status],
    subscribe, receive Pump-3 going offline. *)
Example pump3_scenario :
  let c := lab_client false in
  run JSON.parse Number_toString_int
    [ChangeIp "10.0.0.5"; PressConnect; Transport c CbConnect;
     Transport c (CbSubscribe None); Transport c (CbMessage "status" pump3_offline)]
    initial
  = (mkApp "10.0.0.5" "status" true
       ["✅ Connected to ws://10.0.0.5:9001/mqtt";
        "📡 Subscribed to " ++ quoted "status";
        "📩 status: " ++ pump3_offline;
        "🚨 " ++ quoted "Pump-3" ++ " is offline"]
       (Some c) false,
     [MqttConnect "ws://10.0.0.5:9001/mqtt";
      ClientSubscribe c "status";
      AlertAlert "Notification" ("Device " ++ quoted "Pump-3" ++ " is offline")]).
Proof. reflexivity. Qed.

(** A [stationId] that cannot be converted to a string: the template throws
    before anything is sent, and the handler takes its [catch] branch. *)
Example unprintable_station :
  let msg := "{" ++ field "status" (quoted "offline") ++ ","
                 ++ field "stationId" ("{" ++ field "toString" "1" ++ "}") ++ "}" in
  onMessage JSON.parse Number_toString_int (lab_client true) "status" msg initial
  = mkOutcome (logged initial [raw_entry "status" msg; invalid_entry msg]) [] (Normal tt).
Proof. reflexivity. Qed.

(** C1 as stated fails: the rejected payload [oops] leaves two new log
    entries, not one. *)
Lemma malformed_payload_logs_twice :
  JSON.parse "oops" = None
  /\ statusLog (final (onMessage JSON.parse Number_toString_int (lab_client true)
                         "status" "oops" initial))
       = ["📩 status: oops"; "⚠️ Invalid message format: oops"]
  /\ length (statusLog (final (onMessage JSON.parse Number_toString_int
                                 (lab_client true) "status" "oops" initial)))
       <> (length (statusLog initial) + 1)%nat.
Proof.
  split; [reflexivity|]. split; [reflexivity|]. vm_compute. discriminate.
Qed.

Lemma onMessage_malformed_payload_witness :
  JSON.parse "oops" = None
  /\ final (onMessage JSON.parse Number_toString_int (lab_client true)
              "status" "oops" initial)
       = logged initial [raw_entry "status" "oops"; invalid_entry "oops"].
Proof.
  assert (Hp : JSON.parse "oops" = None) by reflexivity.
  split; [exact Hp|].
  exact (proj1 (onMessage_malformed_payload JSON.parse Number_toString_int
                  (lab_client true) "status" "oops" initial Hp)).
Defined.

(** C2 as stated fails: for Pump-3 going offline the alert is titled
    [Notification] on a client created without notification permission,
    and [🚨 Device Offline] on one created with it; neither title is
    [Device Offline]. *)
Lemma offline_alert_title_differs :
  JSON.parse pump3_offline =
    Some (JObject [("status", JString "offline"); ("stationId", JString "Pump-3")])
  /\ map alert_title
       (alerts (emitted (onMessage JSON.parse Number_toString_int (lab_client false)
                           "status" pump3_offline initial)))
       = [Some "Notification"]
  /\ map alert_title
       (alerts (emitted (onMessage JSON.parse Number_toString_int (lab_client true)
                           "status" pump3_offline initial)))
       = [Some "🚨 Device Offline"]
  /\ "Notification" <> "Device Offline"
  /\ "🚨 Device Offline" <> "Device Offline".
Proof.
  split; [reflexivity|]. split; [reflexivity|]. split; [reflexivity|].
  split; discriminate.
Qed.

Lemma onMessage_offline_alert_witness :
  JSON.parse pump3_offline =
    Some (JObject [("status", JString "offline"); ("stationId", JString "Pump-3")])
  /\ emitted (onMessage JSON.parse Number_toString_int (lab_client true)
                "status" pump3_offline initial)
       = [ScheduleNotification "🚨 Device Offline" (offline_body "Pump-3")].
Proof.
  assert (Hp : JSON.parse pump3_offline =
                 Some (JObject [("status", JString "offline");
                                ("stationId", JString "Pump-3")])) by reflexivity.
  split; [exact Hp|].
  exact (proj1 (onMessage_offline_alert JSON.parse Number_toString_int
                  (lab_client true) "status" pump3_offline initial _ "Pump-3"
                  Hp eq_refl eq_refl)).
Defined.

(** C3 as stated fails in both directions: an empty-string [stationId] is a
    string and yet is replaced by [Unknown Station], and the number 42 is
    not a string and yet is used, printed as [42]. *)
Lemma stationId_default_not_by_type :
  JSON.parse blank_station_offline =
    Some (JObject [("status", JString "offline"); ("stationId", JString EmptyString)])
  /\ map alert_body
       (emitted (onMessage JSON.parse Number_toString_int (lab_client true)
                   "status" blank_station_offline initial))
       = [Some (offline_body "Unknown Station")]
  /\ offline_body "Unknown Station" <> offline_body EmptyString
  /\ JSON.parse station42_offline =
       Some (JObject [("status", JString "offline");
                      ("stationId", JNumber (mkNumeral false 42 0))])
  /\ map alert_body
       (emitted (onMessage JSON.parse Number_toString_int (lab_client true)
                   "status" station42_offline initial))
       = [Some (offline_body "42")]
  /\ offline_body "42" <> offline_body "Unknown Station".
Proof.
  split; [reflexivity|]. split; [reflexivity|]. split; [discriminate|].
  split; [reflexivity|]. split; [reflexivity|]. discriminate.
Qed.

Lemma onMessage_stationId_default_witness :
  JSON.parse blank_station_offline =
    Some (JObject [("status", JString "offline"); ("stationId", JString EmptyString)])
  /\ or_else (lookup "stationId"
                [("status", JString "offline"); ("stationId", JString EmptyString)])
       "Unknown Station" = JString "Unknown Station".
Proof.
  assert (Hp : JSON.parse blank_station_offline =
                 Some (JObject [("status", JString "offline");
                                ("stationId", JString EmptyString)])) by reflexivity.
  split; [exact Hp|].
  exact (proj1 (proj2 (onMessage_stationId_default JSON.parse Number_toString_int
                         (lab_client true) "status" blank_station_offline initial _
                         Hp eq_refl)) eq_refl).
Defined.

Lemma onMessage_not_offline_witness :
  JSON.parse pump3_online =
    Some (JObject [("status", JString "online"); ("stationId", JString "Pump-3")])
  /\ alerts (emitted (onMessage JSON.parse Number_toString_int (lab_client true)
                        "status" pump3_online initial)) = [].
Proof.
  assert (Hp : JSON.parse pump3_online =
                 Some (JObject [("status", JString "online");
                                ("stationId", JString "Pump-3")])) by reflexivity.
  split; [exact Hp|].
  refine (proj1 (onMessage_not_offline JSON.parse Number_toString_int
                   (lab_client true) "status" pump3_online initial _ Hp _)).
  simpl. discriminate.
Defined.

(** C5 as stated fails: the freshly started monitor holds no transport
    handle, and [resetConnection] changes its topic from [status] to
    [mqtt/status]. *)
Lemma reset_changes_initial_state :
  clientRef initial = None
  /\ topic initial = "status"
  /\ topic (final (resetConnection initial)) = "mqtt/status"
  /\ final (resetConnection initial) <> initial.
Proof.
  split; [reflexivity|]. split; [reflexivity|]. split; [reflexivity|].
  discriminate.
Qed.

Lemma resetConnection_without_handle_witness :
  clientRef initial = None
  /\ resetConnection initial = mkOutcome (cleared initial) [] (Normal tt).
Proof.
  split; [reflexivity|].
  exact (proj1 (resetConnection_without_handle initial eq_refl)).
Defined.

Lemma connectToMQTT_missing_config_witness :
  (ip initial = EmptyString \/ topic initial = EmptyString)
  /\ final (connectToMQTT initial) = initial.
Proof.
  split; [left; reflexivity|].
  exact (proj1 (proj2 (connectToMQTT_missing_config initial (or_introl eq_refl)))).
Defined.

(** C7 as stated fails.  Connect is pressed for 10.0.0.5 and, the button
    still being enabled, again for 10.0.0.6: the second press overwrites
    the stored handle and the first client is never ended.  After a
    Disconnect and a Connect to 10.0.0.9 on the topic [alarms], the first
    client's [connect] event makes it subscribe to the old topic
    [status]. *)
Lemma leaked_client_subscribes_old_topic :
  offered
    (render (fst (run JSON.parse Number_toString_int
                    [ChangeIp "10.0.0.5"; PressConnect; ChangeIp "10.0.0.6"] initial)))
    PressConnect = true
  /\ fst (run JSON.parse Number_toString_int double_connect initial)
       = mkApp "10.0.0.6" "status" false [] (Some second_client) false
  /\ snd (run JSON.parse Number_toString_int (double_connect ++ reconnect_alarms)
            initial)
       = [MqttConnect "ws://10.0.0.5:9001/mqtt"; MqttConnect "ws://10.0.0.6:9001/mqtt";
          ClientEnd second_client; MqttConnect "ws://10.0.0.9:9001/mqtt"]
  /\ lab_client false <> second_client
  /\ snd (run JSON.parse Number_toString_int
            (reconnect_alarms ++ [Transport (lab_client false) CbConnect])
            (fst (run JSON.parse Number_toString_int double_connect initial)))
       = [ClientEnd second_client; MqttConnect "ws://10.0.0.9:9001/mqtt";
          ClientSubscribe (lab_client false) "status"]
  /\ "status" <> "alarms".
Proof.
  split; [reflexivity|]. split; [reflexivity|]. split; [reflexivity|].
  split; [discriminate|]. split; [reflexivity|]. discriminate.
Qed.

Lemma reconnect_is_fresh_witness :
  "10.0.0.9" <> EmptyString /\ "alarms" <> EmptyString
  /\ statusLog (fst (run JSON.parse Number_toString_int
                       [PressDisconnect; ChangeIp "10.0.0.9"; ChangeTopic "alarms";
                        PressConnect] busy)) = [].
Proof.
  assert (Hh : "10.0.0.9" <> EmptyString) by discriminate.
  assert (Ht : "alarms" <> EmptyString) by discriminate.
  split; [exact Hh|]. split; [exact Ht|].
  exact (proj1 (reconnect_is_fresh JSON.parse Number_toString_int busy
                  "10.0.0.9" "alarms" Hh Ht)).
Defined.

Lemma statusLog_append_only_witness :
  PressConnect <> PressDisconnect
  /\ exists entries,
       statusLog (final (handle JSON.parse Number_toString_int PressConnect busy))
         = (statusLog busy ++ entries)%list.
Proof.
  assert (He : PressConnect <> PressDisconnect) by discriminate.
  split; [exact He|].
  exact (proj1 (proj2 (statusLog_append_only JSON.parse Number_toString_int))
           PressConnect busy He).
Defined.

(** ** Worked instances of the properties beyond the claims *)

Lemma connect_twice_ends_once_witness :
  ip ready <> EmptyString /\ topic ready <> EmptyString
  /\ offered (render ready) PressConnect = true
  /\ snd (run JSON.parse Number_toString_int
            [PressConnect; PressConnect; PressDisconnect] ready)
       = [MqttConnect "ws://10.0.0.5:9001/mqtt"; MqttConnect "ws://10.0.0.5:9001/mqtt";
          ClientEnd (lab_client false)].
Proof.
  assert (Hi : ip ready <> EmptyString) by discriminate.
  assert (Ht : topic ready <> EmptyString) by discriminate.
  split; [exact Hi|]. split; [exact Ht|]. split; [reflexivity|].
  exact (proj1 (proj2 (connect_twice_ends_once JSON.parse Number_toString_int ready
                         Hi Ht eq_refl))).
Defined.

Lemma offline_alerts_repeat_witness :
  JSON.parse pump3_offline =
    Some (JObject [("status", JString "offline"); ("stationId", JString "Pump-3")])
  /\ snd (run JSON.parse Number_toString_int
            (repeat (Transport (lab_client false) (CbMessage "status" pump3_offline)) 3)
            initial)
       = repeat (AlertAlert "Notification" (offline_body "Pump-3")) 3.
Proof.
  assert (Hp : JSON.parse pump3_offline =
                 Some (JObject [("status", JString "offline");
                                ("stationId", JString "Pump-3")])) by reflexivity.
  split; [exact Hp|].
  exact (f_equal snd
           (offline_alerts_repeat JSON.parse Number_toString_int (lab_client false)
              "status" pump3_offline _ "Pump-3" 3 initial Hp eq_refl eq_refl)).
Defined.

Lemma onMessage_unprintable_station_witness :
  JSON.parse unprintable_offline =
    Some (JObject [("status", JString "offline");
                   ("stationId", JObject [("toString", JNumber (mkNumeral false 1 0))])])
  /\ emitted (onMessage JSON.parse Number_toString_int (lab_client true) "status"
                unprintable_offline initial) = [].
Proof.
  assert (Hp : JSON.parse unprintable_offline =
                 Some (JObject [("status", JString "offline");
                                ("stationId",
                                 JObject [("toString", JNumber (mkNumeral false 1 0))])]))
    by reflexivity.
  split; [exact Hp|].
  exact (f_equal emitted
           (onMessage_unprintable_station JSON.parse Number_toString_int
              (lab_client true) "status" unprintable_offline initial _ _
              Hp eq_refl eq_refl eq_refl)).
Defined.

Lemma onMessage_not_offline_log_witness :
  JSON.parse "42" = Some (JNumber (mkNumeral false 42 0))
  /\ final (onMessage JSON.parse Number_toString_int (lab_client true) "status" "42"
              initial)
       = logged initial [raw_entry "status" "42"].
Proof.
  assert (Hp : JSON.parse "42" = Some (JNumber (mkNumeral false 42 0))) by reflexivity.
  split; [exact Hp|].
  refine (onMessage_not_offline_log JSON.parse Number_toString_int (lab_client true)
            "status" "42" initial _ Hp _).
  simpl. discriminate.
Defined.

Lemma run_without_disconnect_extends_log_witness :
  Forall (fun e => e <> PressDisconnect)
    [ChangeIp "10.0.0.9"; PressConnect; Transport (lab_client false) CbConnect]
  /\ exists entries,
       statusLog (fst (run JSON.parse Number_toString_int
                         [ChangeIp "10.0.0.9"; PressConnect;
                          Transport (lab_client false) CbConnect] busy))
         = (statusLog busy ++ entries)%list.
Proof.
  assert (Hall : Forall (fun e => e <> PressDisconnect)
                   [ChangeIp "10.0.0.9"; PressConnect;
                    Transport (lab_client false) CbConnect]).
  { repeat constructor; discriminate. }
  split; [exact Hall|].
  exact (run_without_disconnect_extends_log JSON.parse Number_toString_int _ busy Hall).
Defined.
